(** * scikit-multiflow: the multilabel stream and the base classifier

    A shallow embedding of
    - [skmultiflow/data/generators/multilabel_generator.py]
      (class [MultilabelGenerator]: an in-memory data set read through a
      cursor, [instance_index]), and
    - [skmultiflow/classification/base.py]
      (class [BaseClassifier]: the abstract learner interface),
    together with the properties of the stream contract that the
    specification states about them.

    Python integers are unbounded, so they are [Z].  The arrays are NumPy
    arrays; only their shape and the order of their rows matter to the
    stream, so the element type of the feature matrix is left abstract. *)

From Stdlib Require Import ZArith List Bool Lia.
From Stdlib Require String Ascii DecimalString DecimalZ Sorted.
Import ListNotations.
Import String.StringSyntax Ascii.AsciiSyntax.
Delimit Scope string_scope with string.
Delimit Scope char_scope with char.
Open Scope Z_scope.

(** ** The part of NumPy the stream relies on *)

Module Numpy.

(** The only exception the stream catches. *)
Inductive exn : Type :=
| IndexError.

Inductive result (A : Type) : Type :=
| Ok (a : A)
| Raise (e : exn).
Arguments Ok {A} a.
Arguments Raise {A} e.

Definition bind {A B : Type} (r : result A) (k : A -> result B) : result B :=
  match r with
  | Ok a => k a
  | Raise e => Raise e
  end.

Notation "x <- r ;; k" := (bind r (fun x => k))
  (at level 61, r at next level, right associativity).

(** An array of one or of two dimensions.  A two-dimensional array keeps its
    number of columns next to its rows, so that the shape [(0, c)] of an
    empty slice is not lost. *)
Inductive ndarray (A : Type) : Type :=
| Arr1 (data : list A)
| Arr2 (ncols : Z) (rows : list (list A)).
Arguments Arr1 {A} data.
Arguments Arr2 {A} ncols rows.

(** [len(a)]: the extent of the first axis. *)
Definition nrows {A : Type} (a : ndarray A) : Z :=
  match a with
  | Arr1 data => Z.of_nat (length data)
  | Arr2 _ rows => Z.of_nat (length rows)
  end.

Definition ndim {A : Type} (a : ndarray A) : Z :=
  match a with
  | Arr1 _ => 1
  | Arr2 _ _ => 2
  end.

(** [a.shape == (r, c)], every row having [c] entries. *)
Definition shape_is {A : Type} (a : ndarray A) (r c : Z) : bool :=
  match a with
  | Arr1 _ => false
  | Arr2 c' rows =>
      (c' =? c) && (Z.of_nat (length rows) =? r)
      && forallb (fun row => Z.of_nat (length row) =? c) rows
  end.

(** How Python places one bound of a slice [start:stop] (step 1) on an axis
    of extent [n]: a negative bound counts from the end, and whatever is
    still outside [0, n] is clamped. *)
Definition slice_index (n i : Z) : Z :=
  if i <? 0 then Z.max (i + n) 0 else Z.min i n.

(** [l[start:stop]] *)
Definition py_slice {A : Type} (l : list A) (start stop : Z) : list A :=
  let n := Z.of_nat (length l) in
  let lo := slice_index n start in
  let hi := slice_index n stop in
  firstn (Z.to_nat (hi - lo)) (skipn (Z.to_nat lo) l).

(** [a[start:stop, :]].  Two indices on a one-dimensional array raise
    [IndexError] (too many indices); on a matrix the row slice never
    raises. *)
Definition rows_slice {A : Type} (a : ndarray A) (start stop : Z)
  : result (ndarray A) :=
  match a with
  | Arr1 _ => Raise IndexError
  | Arr2 c rows => Ok (Arr2 c (py_slice rows start stop))
  end.

(** [a.flatten()]: row-major. *)
Definition flatten {A : Type} (a : ndarray A) : ndarray A :=
  match a with
  | Arr1 data => Arr1 data
  | Arr2 _ rows => Arr1 (concat rows)
  end.

(** The rows of a matrix, first row first. *)
Definition matrix_rows {A : Type} (a : ndarray A) : list (list A) :=
  match a with
  | Arr1 _ => []
  | Arr2 _ rows => rows
  end.

(** [a.sort()] on integers.  Whatever the algorithm, the outcome is the
    ascending arrangement of the entries; it is computed here by
    insertion. *)
Fixpoint insert_sorted (v : Z) (l : list Z) : list Z :=
  match l with
  | [] => [v]
  | h :: t => if v <=? h then v :: l else h :: insert_sorted v t
  end.

Definition sort (l : list Z) : list Z :=
  fold_right insert_sorted [] l.

(** The mask [ar[1:] != ar[:-1]] of [np.unique]: an entry of the sorted
    array is kept when it differs from the one before it. *)
Fixpoint keep_changes (prev : Z) (l : list Z) : list Z :=
  match l with
  | [] => []
  | h :: t => if h =? prev then keep_changes h t else h :: keep_changes h t
  end.

Definition drop_repeats (l : list Z) : list Z :=
  match l with
  | [] => []
  | h :: t => h :: keep_changes h t
  end.

(** [np.unique(a)]: the sorted distinct entries of the flattened array. *)
Definition unique (a : ndarray Z) : ndarray Z :=
  match flatten a with
  | Arr1 data => Arr1 (drop_repeats (sort data))
  | Arr2 c rows => Arr2 c rows
  end.

(** [str(z)] for a Python integer: decimal digits, with a leading minus
    sign for a negative number. *)
Definition str (z : Z) : String.string :=
  DecimalString.NilEmpty.string_of_int (Z.to_int z).

End Numpy.

(** ** MultilabelGenerator *)

Module Stream.
Import Numpy.

Section Generator.

(** Element type of the feature matrix (float64 in the source); the label
    matrix holds the integers 0 and 1. *)
Context {F : Type}.

(** The object's attributes, named as in [__init__]. *)
Record MultilabelGenerator : Type := {
  X : ndarray F;
  y : ndarray Z;
  num_samples : Z;
  num_features : Z;
  num_target_tasks : Z;
  num_labels : Z;
  instance_index : Z;
  current_instance_y : option (ndarray Z);
  current_instance_x : option (ndarray F)
}.

(** What [next_instance] and [get_last_instance] hand back: the pair
    [(current_instance_x, current_instance_y)], [None] being Python's. *)
Definition batch : Type := (option (ndarray F) * option (ndarray Z))%type.

(** A method: it receives [self] and gives back its value and [self] as the
    call left it. *)
Definition method (A : Type) : Type := (A * MultilabelGenerator)%type.

(** [__init__] followed by [__configure].  The matrices come from
    scikit-learn's [make_multilabel_classification], which draws them at
    random; the pair it returned is the argument [data].  The [None] and [0]
    that [__init__] first stores in the data attributes are overwritten by
    [__configure] before the constructor returns. *)
Definition init (data : ndarray F * ndarray Z)
  (n_samples n_features n_targets n_labels : Z) : MultilabelGenerator :=
  {| X := fst data;
     y := snd data;
     num_samples := n_samples;
     num_features := n_features;
     num_target_tasks := n_targets;
     num_labels := n_labels;
     instance_index := 0;
     current_instance_y := None;
     current_instance_x := None |}.

(** The result [make_multilabel_classification] documents: [X] of shape
    [(n_samples, n_features)] and [Y] of shape [(n_samples, n_classes)],
    where the constructor passes [n_targets] for [n_classes]. *)
Definition generated (data : ndarray F * ndarray Z)
  (n_samples n_features n_targets : Z) : Prop :=
  shape_is (fst data) n_samples n_features = true /\
  shape_is (snd data) n_samples n_targets = true.

Definition set_instance_index (self : MultilabelGenerator) (i : Z)
  : MultilabelGenerator :=
  {| X := X self;
     y := y self;
     num_samples := num_samples self;
     num_features := num_features self;
     num_target_tasks := num_target_tasks self;
     num_labels := num_labels self;
     instance_index := i;
     current_instance_y := current_instance_y self;
     current_instance_x := current_instance_x self |}.

Definition set_current_instance (self : MultilabelGenerator) (b : batch)
  : MultilabelGenerator :=
  {| X := X self;
     y := y self;
     num_samples := num_samples self;
     num_features := num_features self;
     num_target_tasks := num_target_tasks self;
     num_labels := num_labels self;
     instance_index := instance_index self;
     current_instance_y := snd b;
     current_instance_x := fst b |}.

Definition estimated_remaining_instances (self : MultilabelGenerator)
  : method Z :=
  (num_samples self - instance_index self, self).

Definition has_more_instances (self : MultilabelGenerator) : method bool :=
  (0 <? num_samples self - instance_index self, self).

(** The body of the [try] block of [next_instance], after the cursor has
    moved: both slices, then the flattening of the labels of a stream with
    fewer than two targets. *)
Definition next_instance_try (self : MultilabelGenerator) (batch_size : Z)
  : result batch :=
  x <- rows_slice (X self)
         (instance_index self - batch_size) (instance_index self) ;;
  y2 <- rows_slice (y self)
         (instance_index self - batch_size) (instance_index self) ;;
  Ok (Some x,
      Some (if num_target_tasks self <? 2 then flatten y2 else y2)).

Definition next_instance (self : MultilabelGenerator) (batch_size : Z)
  : method batch :=
  let self := set_instance_index self (instance_index self + batch_size) in
  let current :=
    match next_instance_try self batch_size with
    | Ok b => b
    | Raise IndexError => (None, None)
    end in
  (current, set_current_instance self current).

Definition is_restartable (self : MultilabelGenerator) : method bool :=
  (true, self).

(** [restart] is [pass]: it returns [None] and touches nothing. *)
Definition restart (self : MultilabelGenerator) : method unit :=
  (tt, self).

Definition get_num_attributes (self : MultilabelGenerator) : method Z :=
  (num_features self, self).

Definition get_num_targets (self : MultilabelGenerator) : method Z :=
  (num_target_tasks self, self).

Definition get_last_instance (self : MultilabelGenerator) : method batch :=
  ((current_instance_x self, current_instance_y self), self).

Definition prepare_for_use (self : MultilabelGenerator) : method unit :=
  (tt, self).

Definition get_num_targeting_tasks (self : MultilabelGenerator) : method Z :=
  (num_target_tasks self, self).

(** *** Traces of calls *)

(** The calls a client can make on a stream.  The remaining methods of the
    class are [pass] or return a constant; like the accessors below they
    leave the object as it is. *)
Inductive op : Type :=
| NextInstance (batch_size : Z)
| Restart
| HasMoreInstances
| EstimatedRemainingInstances
| GetLastInstance
| GetNumAttributes
| GetNumTargets.

(** The object after one call. *)
Definition exec (o : op) (self : MultilabelGenerator) : MultilabelGenerator :=
  match o with
  | NextInstance batch_size => snd (next_instance self batch_size)
  | Restart => snd (restart self)
  | HasMoreInstances => snd (has_more_instances self)
  | EstimatedRemainingInstances => snd (estimated_remaining_instances self)
  | GetLastInstance => snd (get_last_instance self)
  | GetNumAttributes => snd (get_num_attributes self)
  | GetNumTargets => snd (get_num_targets self)
  end.

(** Calls whose batch size is at least [lo]. *)
Definition batch_size_from (lo : Z) (o : op) : Prop :=
  match o with
  | NextInstance batch_size => lo <= batch_size
  | _ => True
  end.

(** The states a client can bring a stream into: a freshly constructed one,
    and whatever a call makes of a reachable one.  [lo] is the least batch
    size the client asks for. *)
Inductive reachable (lo : Z) : MultilabelGenerator -> Prop :=
| reachable_init data n_samples n_features n_targets n_labels :
    generated data n_samples n_features n_targets ->
    reachable lo (init data n_samples n_features n_targets n_labels)
| reachable_exec o self :
    reachable lo self ->
    batch_size_from lo o ->
    reachable lo (exec o self).

(** The calls that only read: all but [next_instance], which moves the
    cursor, and [restart]. *)
Definition is_accessor (o : op) : bool :=
  match o with
  | NextInstance _ | Restart => false
  | _ => true
  end.

Definition is_next_instance (o : op) : bool :=
  match o with
  | NextInstance _ => true
  | _ => false
  end.

(** The object after a sequence of calls, first call first. *)
Definition run (ops : list op) (self : MultilabelGenerator)
  : MultilabelGenerator :=
  fold_left (fun s o => exec o s) ops self.

(** The shape the constructor establishes: both matrices have
    [num_samples] rows, of [num_features] and [num_target_tasks] entries. *)
Definition stream_ok (self : MultilabelGenerator) : Prop :=
  shape_is (X self) (num_samples self) (num_features self) = true /\
  shape_is (y self) (num_samples self) (num_target_tasks self) = true.

(** [n] calls of [next_instance(batch_size)] in a row: the batches they
    return, first call first, and the object after the last one. *)
Fixpoint next_instances (n : nat) (self : MultilabelGenerator)
  (batch_size : Z) : method (list batch) :=
  match n with
  | O => ([], self)
  | S n' =>
      let (b, self1) := next_instance self batch_size in
      let (bs, self2) := next_instances n' self1 batch_size in
      (b :: bs, self2)
  end.

(** *** Reading a batch *)

(** Number of samples in a batch: the rows of its feature matrix; an absent
    batch has none. *)
Definition batch_rows (b : batch) : Z :=
  match fst b with
  | Some x => nrows x
  | None => 0
  end.

(** The exhaustion signal in the words of the specification: an absent batch
    [(None, None)], or an empty one, whose arrays have no row. *)
Definition is_exhaustion_signal (b : batch) : bool :=
  match b with
  | (None, None) => true
  | (Some x, Some y2) => (nrows x =? 0) && (nrows y2 =? 0)
  | _ => false
  end.

Definition total_rows (bs : list batch) : Z :=
  fold_right (fun b acc => batch_rows b + acc) 0 bs.

(** *** The remaining accessors *)

Definition get_classes (self : MultilabelGenerator) : method (ndarray Z) :=
  (unique (y self), self).

Definition get_plot_name (self : MultilabelGenerator) : method String.string :=
  ("Multilabel dataset"%string, self).

Definition get_class_type (self : MultilabelGenerator) : method String.string :=
  ("stream"%string, self).

Definition get_info (self : MultilabelGenerator) : method String.string :=
  (String.append "MultilabelGenerator: n_samples: "
     (String.append (str (num_samples self))
     (String.append " - n_features: "
     (String.append (str (num_features self))
     (String.append " - n_targets: "
     (String.append (str (num_target_tasks self))
     (String.append " - n_labels:"
                    (str (num_labels self))))))))%string,
   self).

(** *** Calls of varying size *)

(** One call of [next_instance] for each of [sizes], first size first: the
    batches returned and the object after the last call. *)
Fixpoint next_instance_each (sizes : list Z) (self : MultilabelGenerator)
  : method (list batch) :=
  match sizes with
  | [] => ([], self)
  | batch_size :: rest =>
      let (b, self1) := next_instance self batch_size in
      let (bs, self2) := next_instance_each rest self1 in
      (b :: bs, self2)
  end.

(** The number of samples a sequence of calls asks for. *)
Definition requested (ops : list op) : Z :=
  fold_right (fun o acc =>
                match o with
                | NextInstance batch_size => batch_size + acc
                | _ => acc
                end) 0 ops.

Definition sum_sizes (sizes : list Z) : Z := fold_right Z.add 0 sizes.

(** The feature rows of a batch, and its label entries in row-major order
    (the labels read the same whether or not they were flattened). *)
Definition batch_feature_rows (b : batch) : list (list F) :=
  match fst b with
  | Some (Arr2 _ rows) => rows
  | _ => []
  end.

Definition batch_label_rows (b : batch) : list (list Z) :=
  match snd b with
  | Some a => matrix_rows a
  | None => []
  end.

Definition batch_label_entries (b : batch) : list Z :=
  match snd b with
  | Some (Arr1 data) => data
  | Some (Arr2 _ rows) => concat rows
  | None => []
  end.

End Generator.

Arguments MultilabelGenerator F : clear implicits.
Arguments batch F : clear implicits.
Arguments op : clear implicits.

End Stream.

(** ** Two small streams

    Four samples of two features each, once with a single target and once
    with three; they serve as concrete instances of the statements below. *)

Module Demo.
Import Numpy Stream.

Definition features : ndarray Z :=
  Arr2 2 [[7; 2]; [5; 3]; [2; 6]; [8; 3]].

Definition labels1 : ndarray Z :=
  Arr2 1 [[1]; [0]; [1]; [1]].

Definition labels3 : ndarray Z :=
  Arr2 3 [[1; 0; 1]; [0; 1; 1]; [1; 1; 0]; [0; 0; 1]].

(** [MultilabelGenerator(n_samples=4, n_features=2, n_targets=1, n_labels=1)] *)
Definition single : MultilabelGenerator Z :=
  init (features, labels1) 4 2 1 1.

(** [MultilabelGenerator(n_samples=4, n_features=2, n_targets=3, n_labels=2)] *)
Definition multi : MultilabelGenerator Z :=
  init (features, labels3) 4 2 3 2.



(** The stream of the specification's scenario:
    [MultilabelGenerator(n_samples=10, n_features=4, n_targets=1)], with
    the default [n_labels=2]. *)
Definition ten : MultilabelGenerator Z :=
  init (Arr2 4 (map (fun i => [i; i + 1; i + 2; i + 3])
                    [0; 1; 2; 3; 4; 5; 6; 7; 8; 9]),
        Arr2 1 (map (fun i => [i mod 2]) [0; 1; 2; 3; 4; 5; 6; 7; 8; 9]))
       10 4 1 2.

End Demo.

(** ** BaseClassifier *)

Module Classification.

Section Base.

(** What a learner is made of is left open: its state [model], the arrays
    it is fed, the values its methods return and the exceptions they may
    raise. *)
Context {model array value error : Type}.

(** How a call on a learner ends: it returns a value or raises, and either
    way leaves the learner in some state. *)
Inductive outcome : Type :=
| Returns (v : value) (self : model)
| Raises (e : error) (self : model).

(** The state a call leaves, and the exception it raised if any: its effect,
    apart from the value it returned. *)
Definition effect (o : outcome) : option error * model :=
  match o with
  | Returns _ self => (None, self)
  | Raises e self => (Some e, self)
  end.

(** The abstract methods a concrete learner has to provide;
    [classes = None] is the default of the three fitting methods. *)
Class BaseClassifier : Type := {
  none : value;
  fit : model -> array -> array -> option array -> outcome;
  partial_fit : model -> array -> array -> option array -> outcome;
  predict : model -> array -> outcome;
  predict_proba : model -> array -> outcome;
  score : model -> array -> array -> outcome
}.

(** The body [BaseClassifier] gives [first_fit]: the statement
    [self.fit(X, y, classes)].  The value of the call is dropped and the
    method returns [None]; an exception of [fit] passes through. *)
Definition first_fit `{BaseClassifier} (self : model) (X y : array)
  (classes : option array) : outcome :=
  match fit self X y classes with
  | Returns _ self' => Returns none self'
  | Raises e self' => Raises e self'
  end.

(** The value a call returned, if it returned. *)
Definition returned (o : outcome) : option value :=
  match o with
  | Returns v _ => Some v
  | Raises _ _ => None
  end.

End Base.

Arguments outcome : clear implicits.
Arguments BaseClassifier : clear implicits.

(** A learner small enough to run: it keeps the labels it was fitted on and
    predicts the last of them; fitting on arrays of different lengths raises.
    Its [fit] returns the learner's label count, a value other than
    [None]. *)
Module Memo.

Inductive error : Type :=
| ValueError.

Definition model : Type := list Z.

Definition memo_fit (self : model) (X y : list Z) (classes : option (list Z))
  : outcome model (option Z) error :=
  if (length X =? length y)%nat
  then Returns (Some (Z.of_nat (length y))) y
  else Raises ValueError self.

Definition memo_partial_fit (self : model) (X y : list Z)
  (classes : option (list Z)) : outcome model (option Z) error :=
  if (length X =? length y)%nat
  then Returns None (self ++ y)
  else Raises ValueError self.

Definition memo_predict (self : model) (X : list Z)
  : outcome model (option Z) error :=
  Returns (Some (last self 0)) self.

Definition memo_score (self : model) (X y : list Z)
  : outcome model (option Z) error :=
  Returns None self.

#[export] Instance memo : BaseClassifier model (list Z) (option Z) error := {|
  none := None;
  fit := memo_fit;
  partial_fit := memo_partial_fit;
  predict := memo_predict;
  predict_proba := memo_predict;
  score := memo_score
|}.

End Memo.

End Classification.

(** * Properties *)

Import Numpy Stream.

(** ** Slices *)

Section SliceFacts.

Context {A : Type}.
Implicit Types (l : list A) (n i start stop : Z).

Lemma slice_index_bounds n i :
  0 <= n -> 0 <= slice_index n i <= n.
Proof.
  intros Hn. unfold slice_index.
  destruct (Z.ltb_spec i 0); lia.
Qed.

Lemma slice_index_inside n i :
  0 <= i <= n -> slice_index n i = i.
Proof.
  intros Hi. unfold slice_index.
  destruct (Z.ltb_spec i 0); lia.
Qed.

Lemma slice_index_beyond n i :
  0 <= n <= i -> slice_index n i = n.
Proof.
  intros Hi. unfold slice_index.
  destruct (Z.ltb_spec i 0); lia.
Qed.

(** A slice never raises and its length is the distance between the placed
    bounds (none when they cross). *)
Lemma py_slice_length l start stop :
  length (py_slice l start stop) =
  Z.to_nat (slice_index (Z.of_nat (length l)) stop
            - slice_index (Z.of_nat (length l)) start).
Proof.
  unfold py_slice.
  pose proof (slice_index_bounds _ start (Nat2Z.is_nonneg (length l))) as Hlo.
  pose proof (slice_index_bounds _ stop (Nat2Z.is_nonneg (length l))) as Hhi.
  rewrite length_firstn, length_skipn. lia.
Qed.

(** A slice that starts at or after the end is empty, whatever its stop. *)
Lemma py_slice_past_end l start stop :
  Z.of_nat (length l) <= start -> py_slice l start stop = [].
Proof.
  intros Hstart. apply length_zero_iff_nil.
  rewrite py_slice_length.
  rewrite (slice_index_beyond _ start) by lia.
  pose proof (slice_index_bounds _ stop (Nat2Z.is_nonneg (length l))). lia.
Qed.

(** A slice inside the list is the plain sub-list. *)
Lemma py_slice_inside l start stop :
  0 <= start <= stop -> stop <= Z.of_nat (length l) ->
  py_slice l start stop =
  firstn (Z.to_nat (stop - start)) (skipn (Z.to_nat start) l).
Proof.
  intros Hs He. unfold py_slice.
  rewrite !slice_index_inside by lia. reflexivity.
Qed.

Lemma py_slice_inside_length l start stop :
  0 <= start <= stop -> stop <= Z.of_nat (length l) ->
  Z.of_nat (length (py_slice l start stop)) = stop - start.
Proof.
  intros Hs He. rewrite py_slice_length.
  rewrite !slice_index_inside by lia. lia.
Qed.

(** A slice that starts inside and stops beyond the end is the tail: it is
    shorter than what was asked for. *)
Lemma py_slice_tail_length l start stop :
  0 <= start <= Z.of_nat (length l) -> Z.of_nat (length l) <= stop ->
  Z.of_nat (length (py_slice l start stop)) = Z.of_nat (length l) - start.
Proof.
  intros Hs He. rewrite py_slice_length.
  rewrite (slice_index_inside _ start), (slice_index_beyond _ stop) by lia.
  lia.
Qed.

Example py_slice_middle : py_slice [10; 11; 12; 13] 1 3 = [11; 12].
Proof. reflexivity. Qed.

Example py_slice_across_end : py_slice [10; 11; 12; 13] 3 5 = [13].
Proof. reflexivity. Qed.

Example py_slice_after_end : py_slice [10; 11; 12; 13] 4 6 = [].
Proof. reflexivity. Qed.

Example py_slice_from_the_end : py_slice [10; 11; 12; 13] (-3) (-1) = [11; 12].
Proof. reflexivity. Qed.

Example py_slice_crossed : py_slice [10; 11; 12; 13] 2 1 = [].
Proof. reflexivity. Qed.

Lemma shape_is_inv (a : ndarray A) r c :
  shape_is a r c = true ->
  exists rows, a = Arr2 c rows /\ Z.of_nat (length rows) = r /\
               Forall (fun row => Z.of_nat (length row) = c) rows.
Proof.
  destruct a as [data | c' rows]; simpl; [discriminate|].
  rewrite !andb_true_iff, forallb_forall, !Z.eqb_eq.
  intros [[Hc Hr] Hrows]. subst c'. exists rows. repeat split; trivial.
  apply Forall_forall. intros row Hin. apply Z.eqb_eq. now apply Hrows.
Qed.

Lemma Forall_py_slice (P : A -> Prop) l start stop :
  Forall P l -> Forall P (py_slice l start stop).
Proof.
  intros H. unfold py_slice.
  set (lo := Z.to_nat (slice_index (Z.of_nat (length l)) start)).
  set (k := Z.to_nat _).
  rewrite <- (firstn_skipn lo l) in H. apply Forall_app in H as [_ H].
  rewrite <- (firstn_skipn k (skipn lo l)) in H.
  now apply Forall_app in H as [H _].
Qed.

(** Flattening rows of [c] entries each gives [c] entries per row. *)
Lemma concat_rows_length (rows : list (list A)) c :
  Forall (fun row => Z.of_nat (length row) = c) rows ->
  Z.of_nat (length (concat rows)) = Z.of_nat (length rows) * c.
Proof.
  induction 1 as [| row rows Hrow _ IH]; cbn [concat length]; [reflexivity|].
  rewrite length_app, Nat2Z.inj_add, Nat2Z.inj_succ. lia.
Qed.

End SliceFacts.

(** ** The stream *)

Section StreamFacts.

Context {F : Type}.
Implicit Types (self : MultilabelGenerator F) (batch_size lo : Z).
Implicit Types (data : ndarray F * ndarray Z).

(** *** What a call changes *)

Lemma next_instance_index self batch_size :
  instance_index (snd (next_instance self batch_size)) =
  instance_index self + batch_size.
Proof. reflexivity. Qed.

Lemma next_instance_frame self batch_size :
  let self' := snd (next_instance self batch_size) in
  X self' = X self /\ y self' = y self /\
  num_samples self' = num_samples self /\
  num_features self' = num_features self /\
  num_target_tasks self' = num_target_tasks self /\
  num_labels self' = num_labels self.
Proof. cbv zeta. repeat split; reflexivity. Qed.

Lemma next_instance_cached self batch_size :
  let self' := snd (next_instance self batch_size) in
  (current_instance_x self', current_instance_y self') =
  fst (next_instance self batch_size).
Proof.
  cbv zeta. unfold next_instance. cbn [fst snd].
  unfold set_current_instance.
  cbn [current_instance_x current_instance_y].
  now destruct (match next_instance_try _ _ with Ok b => b | _ => _ end).
Qed.

(** Every call but [next_instance] gives the object back untouched. *)
Lemma exec_accessor (o : op) self :
  (forall batch_size, o <> NextInstance batch_size) -> exec o self = self.
Proof.
  destruct o; intros Ho; try reflexivity. now contradiction (Ho batch_size).
Qed.

(** *** The shape invariant *)

Lemma stream_ok_inv self :
  stream_ok self ->
  exists xs ys,
    X self = Arr2 (num_features self) xs /\
    y self = Arr2 (num_target_tasks self) ys /\
    Z.of_nat (length xs) = num_samples self /\
    Z.of_nat (length ys) = num_samples self /\
    Forall (fun row => Z.of_nat (length row) = num_features self) xs /\
    Forall (fun row => Z.of_nat (length row) = num_target_tasks self) ys.
Proof.
  intros [HX Hy].
  apply shape_is_inv in HX as (xs & HX & Hxs & Hxrows).
  apply shape_is_inv in Hy as (ys & Hy & Hys & Hyrows).
  exists xs, ys. repeat split; assumption.
Qed.

Lemma init_ok data n_samples n_features n_targets n_labels :
  generated data n_samples n_features n_targets ->
  stream_ok (init data n_samples n_features n_targets n_labels).
Proof. intros H. exact H. Qed.

Lemma exec_ok o self : stream_ok self -> stream_ok (exec o self).
Proof. destruct o; intros H; exact H. Qed.

Lemma reachable_ok lo self : reachable lo self -> stream_ok self.
Proof.
  induction 1 as [data ns nf nt nl Hgen | o self _ IH _].
  - now apply init_ok.
  - now apply exec_ok.
Qed.

(** A client that asks for smaller batches reaches at least as much. *)
Lemma reachable_weaken lo lo' self :
  lo' <= lo -> reachable lo self -> reachable lo' self.
Proof.
  intros Hle. induction 1 as [data ns nf nt nl Hgen | o self _ IH Ho].
  - now constructor.
  - constructor; [assumption|]. destruct o; cbn in *; trivial; lia.
Qed.

(** The cursor of a client that never asks for a negative batch size. *)
Lemma reachable_index_nonneg lo self :
  0 <= lo -> reachable lo self -> 0 <= instance_index self.
Proof.
  intros Hlo. induction 1 as [data ns nf nt nl Hgen | o self _ IH Ho].
  - reflexivity.
  - destruct o; cbn in *; try assumption. lia.
Qed.

(** *** What [next_instance] returns on well-shaped matrices *)

Lemma next_instance_matrices self batch_size cx xs cy ys :
  X self = Arr2 cx xs -> y self = Arr2 cy ys ->
  let i := instance_index self in
  fst (next_instance self batch_size) =
  (Some (Arr2 cx (py_slice xs i (i + batch_size))),
   Some (if num_target_tasks self <? 2
         then Arr1 (concat (py_slice ys i (i + batch_size)))
         else Arr2 cy (py_slice ys i (i + batch_size)))).
Proof.
  intros HX Hy. cbv zeta.
  unfold next_instance, next_instance_try. cbn [fst].
  unfold set_instance_index at 1 2.
  cbn [X y instance_index num_target_tasks set_instance_index].
  rewrite HX, Hy. cbn [rows_slice bind flatten].
  replace (instance_index self + batch_size - batch_size)
    with (instance_index self) by lia.
  now destruct (num_target_tasks self <? 2).
Qed.

(** Past the end both slices are empty. *)
Lemma next_instance_empty self batch_size :
  stream_ok self ->
  num_samples self <= instance_index self ->
  fst (next_instance self batch_size) =
    (Some (Arr2 (num_features self) []),
     Some (if num_target_tasks self <? 2
           then Arr1 []
           else Arr2 (num_target_tasks self) [])).
Proof.
  intros Hok Hpast.
  destruct (stream_ok_inv self Hok) as (xs & ys & HX & Hy & Hxs & Hys & _).
  pose proof (next_instance_matrices self batch_size _ _ _ _ HX Hy) as Hres.
  cbv zeta in Hres.
  now rewrite !py_slice_past_end in Hres by lia.
Qed.

(** Inside the data the batch has as many rows as were asked for. *)
Lemma next_instance_rows_inside self batch_size :
  stream_ok self ->
  0 <= instance_index self ->
  0 <= batch_size ->
  instance_index self + batch_size <= num_samples self ->
  batch_rows (fst (next_instance self batch_size)) = batch_size.
Proof.
  intros Hok Hidx Hb Hin.
  destruct (stream_ok_inv self Hok) as (xs & ys & HX & Hy & Hxs & Hys & _).
  rewrite (next_instance_matrices self batch_size _ _ _ _ HX Hy).
  unfold batch_rows. cbn [fst nrows].
  rewrite py_slice_inside_length; lia.
Qed.

(** Across the end the batch has the rows that were left. *)
Lemma next_instance_rows_across self batch_size :
  stream_ok self ->
  0 <= instance_index self <= num_samples self ->
  num_samples self <= instance_index self + batch_size ->
  batch_rows (fst (next_instance self batch_size)) =
  num_samples self - instance_index self.
Proof.
  intros Hok Hidx Hover.
  destruct (stream_ok_inv self Hok) as (xs & ys & HX & Hy & Hxs & Hys & _).
  rewrite (next_instance_matrices self batch_size _ _ _ _ HX Hy).
  unfold batch_rows. cbn [fst nrows].
  rewrite py_slice_tail_length; lia.
Qed.

(** A batch with a row is not the exhaustion signal. *)
Lemma rows_not_exhaustion_signal (b : batch F) :
  batch_rows b <> 0 -> is_exhaustion_signal b = false.
Proof.
  destruct b as [[x |] [y2 |]]; unfold batch_rows; cbn [fst];
    intros Hrows; try reflexivity; try contradiction.
  cbn [is_exhaustion_signal].
  apply Z.eqb_neq in Hrows. now rewrite Hrows.
Qed.

(** *** Repeated calls *)

Lemma next_instances_succ n self batch_size :
  next_instances (S n) self batch_size =
  (fst (next_instance self batch_size)
     :: fst (next_instances n (snd (next_instance self batch_size)) batch_size),
   snd (next_instances n (snd (next_instance self batch_size)) batch_size)).
Proof.
  cbn [next_instances].
  destruct (next_instance self batch_size) as [b self1]. cbn [fst snd].
  now destruct (next_instances n self1 batch_size).
Qed.

Lemma next_instances_length n self batch_size :
  length (fst (next_instances n self batch_size)) = n.
Proof.
  revert self. induction n as [| n IH]; intros self; [reflexivity|].
  rewrite next_instances_succ. cbn [fst length]. now rewrite IH.
Qed.

Lemma next_instances_index n self batch_size :
  instance_index (snd (next_instances n self batch_size)) =
  instance_index self + Z.of_nat n * batch_size.
Proof.
  revert self. induction n as [| n IH]; intros self.
  - cbn. lia.
  - rewrite next_instances_succ. cbn [snd].
    rewrite IH, next_instance_index. lia.
Qed.

Lemma next_instances_ok n self batch_size :
  stream_ok self ->
  stream_ok (snd (next_instances n self batch_size)) /\
  num_samples (snd (next_instances n self batch_size)) = num_samples self.
Proof.
  revert self. induction n as [| n IH]; intros self Hok.
  - now split.
  - rewrite next_instances_succ. cbn [snd].
    apply (IH (snd (next_instance self batch_size))).
    exact (exec_ok (NextInstance batch_size) self Hok).
Qed.

(** As long as the calls stay inside the data every batch is full. *)
Lemma next_instances_full n self batch_size :
  stream_ok self ->
  0 <= instance_index self ->
  1 <= batch_size ->
  instance_index self + Z.of_nat n * batch_size <= num_samples self ->
  Forall (fun b => is_exhaustion_signal b = false /\
                   batch_rows b = batch_size)
         (fst (next_instances n self batch_size)).
Proof.
  revert self. induction n as [| n IH]; intros self Hok Hidx Hb Hin.
  - constructor.
  - rewrite next_instances_succ. cbn [fst].
    assert (Hrows : batch_rows (fst (next_instance self batch_size))
                    = batch_size)
      by (apply next_instance_rows_inside; trivial; nia).
    constructor.
    + split; [|exact Hrows].
      apply rows_not_exhaustion_signal. lia.
    + apply IH; trivial.
      * rewrite next_instance_index. lia.
      * rewrite next_instance_index.
        change (num_samples (snd (next_instance self batch_size)))
          with (num_samples self).
        lia.
Qed.

Lemma total_rows_full (bs : list (batch F)) batch_size :
  Forall (fun b => is_exhaustion_signal b = false /\
                   batch_rows b = batch_size) bs ->
  total_rows bs = Z.of_nat (length bs) * batch_size.
Proof.
  induction 1 as [| b bs [_ Hb] _ IH]; [reflexivity|].
  unfold total_rows in *. cbn [fold_right length].
  rewrite IH, Hb, Nat2Z.inj_succ. lia.
Qed.

End StreamFacts.

(** ** The stream contract *)

Section StreamContract.

Context {F : Type}.
Implicit Types (self : MultilabelGenerator F) (batch_size lo : Z).
Implicit Types (data : ndarray F * ndarray Z).

(** C1.  Once the cursor has reached or passed [num_samples], a call of
    [next_instance] returns the exhaustion signal, as an empty batch: a
    feature matrix without rows and labels without entries.  It does so for
    every batch size, through the normal path of the [try] block: nothing is
    raised. *)
Theorem next_instance_past_end self batch_size :
  stream_ok self ->
  num_samples self <= instance_index self ->
  next_instance_try
    (set_instance_index self (instance_index self + batch_size)) batch_size
    = Ok (fst (next_instance self batch_size)) /\
  fst (next_instance self batch_size) =
    (Some (Arr2 (num_features self) []),
     Some (if num_target_tasks self <? 2
           then Arr1 []
           else Arr2 (num_target_tasks self) [])) /\
  is_exhaustion_signal (fst (next_instance self batch_size)) = true.
Proof.
  intros Hok Hpast.
  pose proof (next_instance_empty self batch_size Hok Hpast) as Hres.
  destruct (stream_ok_inv self Hok) as (xs & ys & HX & Hy & _).
  split; [|split].
  - unfold next_instance. cbn [fst].
    unfold next_instance_try.
    cbn [X y set_instance_index]. rewrite HX, Hy. reflexivity.
  - exact Hres.
  - rewrite Hres. now destruct (num_target_tasks self <? 2).
Qed.

(** C10.  In every reachable state and for every batch size (so for every
    [batch_size >= 0]), the [try] block of [next_instance] ends normally:
    the handler of [IndexError] is never entered, and the call returns a
    pair of arrays, never [(None, None)]. *)
Theorem next_instance_never_absent lo self batch_size :
  reachable lo self ->
  (exists b,
     next_instance_try
       (set_instance_index self (instance_index self + batch_size))
       batch_size = Ok b) /\
  (exists x y2, fst (next_instance self batch_size) = (Some x, Some y2) /\
                ndim x = 2) /\
  fst (next_instance self batch_size) <> (None, None).
Proof.
  intros Hreach. apply reachable_ok in Hreach.
  destruct (stream_ok_inv self Hreach) as (xs & ys & HX & Hy & _).
  pose proof (next_instance_matrices self batch_size _ _ _ _ HX Hy) as Hres.
  cbv zeta in Hres. split; [|split].
  - unfold next_instance_try. cbn [X y set_instance_index].
    rewrite HX, Hy. cbn [rows_slice bind]. eauto.
  - rewrite Hres. eauto.
  - rewrite Hres. discriminate.
Qed.

(** A run of calls among which there is no [next_instance] leaves the
    object as it was. *)
Lemma run_without_next_instance (ops : list op) self :
  forallb (fun o => negb (is_next_instance o)) ops = true ->
  run ops self = self.
Proof.
  unfold run. revert self.
  induction ops as [| o ops IH]; intros self Hops; [reflexivity|].
  cbn [forallb] in Hops. apply andb_true_iff in Hops as [Ho Hops].
  cbn [fold_left]. rewrite exec_accessor; [now apply IH|].
  intros b ->. discriminate.
Qed.

(** C8.  [get_last_instance] gives the object back as it received it, and
    its value is the cached pair.  After a call of [next_instance], and
    whatever calls other than [next_instance] follow it, that pair is the
    one this most recent [next_instance] returned. *)
Theorem get_last_instance_pure_read self batch_size (ops : list op) :
  forallb (fun o => negb (is_next_instance o)) ops = true ->
  (forall self', snd (get_last_instance self') = self' /\
                 fst (get_last_instance self') =
                 (current_instance_x self', current_instance_y self')) /\
  fst (get_last_instance (run ops (snd (next_instance self batch_size)))) =
  fst (next_instance self batch_size).
Proof.
  intros Hops. split.
  - intros self'. split; reflexivity.
  - rewrite run_without_next_instance by assumption.
    unfold get_last_instance. cbn [fst].
    apply next_instance_cached.
Qed.

(** C5, as the code has it.  The cursor of a client whose batch sizes are at
    least 1 is never negative; [next_instance] adds [batch_size] to it
    whether or not that many rows remain, so that it grows at every such
    call and is not bounded by [num_samples]; the accessors leave it where
    it is. *)
Theorem cursor_nonneg_and_advancing self :
  reachable 1 self ->
  0 <= instance_index self /\
  (forall batch_size, 1 <= batch_size ->
     instance_index (exec (NextInstance batch_size) self) =
       instance_index self + batch_size /\
     instance_index self
       <= instance_index (exec (NextInstance batch_size) self)) /\
  (forall o, is_accessor o = true ->
     instance_index (exec o self) = instance_index self).
Proof.
  intros Hreach. split; [|split].
  - apply (reachable_index_nonneg 1); [lia | assumption].
  - intros batch_size Hb. cbn [exec]. rewrite next_instance_index. lia.
  - intros o Ho. destruct o; try discriminate; reflexivity.
Qed.

(** C6, as the code has it.  [estimated_remaining_instances] returns
    [num_samples - instance_index] as it is, without clamping: in a
    reachable state the value is at most [num_samples], and it is
    non-negative exactly when the cursor has not passed [num_samples]. *)
Theorem estimated_remaining_instances_value lo self :
  0 <= lo ->
  reachable lo self ->
  snd (estimated_remaining_instances self) = self /\
  fst (estimated_remaining_instances self) =
    num_samples self - instance_index self /\
  fst (estimated_remaining_instances self) <= num_samples self /\
  (0 <= fst (estimated_remaining_instances self) <->
   instance_index self <= num_samples self).
Proof.
  intros Hlo Hreach.
  pose proof (reachable_index_nonneg lo self Hlo Hreach) as Hidx.
  unfold estimated_remaining_instances. cbn [fst snd].
  repeat split; lia.
Qed.


(** C2.  A stream built with [n_samples = N] and read from the start in
    batches of [b >= 1], where [b] divides [N]: the first [N / b] calls of
    [next_instance(b)] return [N / b] batches, none of them the exhaustion
    signal, each of [b] rows, [N] rows in all; [has_more_instances()] is
    true before each of these calls and false after the last; the call
    that follows returns the exhaustion signal. *)
Theorem even_batches_until_exhaustion data N n_features n_targets n_labels b :
  generated data N n_features n_targets ->
  1 <= b ->
  (b | N) ->
  let self0 := init data N n_features n_targets n_labels in
  let k := Z.to_nat (N / b) in
  let batches := fst (next_instances k self0 b) in
  let self' := snd (next_instances k self0 b) in
  length batches = k /\
  Forall (fun bt => is_exhaustion_signal bt = false /\ batch_rows bt = b)
         batches /\
  total_rows batches = N /\
  (forall j, (j < k)%nat ->
     fst (has_more_instances (snd (next_instances j self0 b))) = true) /\
  fst (has_more_instances self') = false /\
  is_exhaustion_signal (fst (next_instance self' b)) = true.
Proof.
  intros Hgen Hb [q Hq]. cbv zeta.
  set (self0 := init data N n_features n_targets n_labels).
  assert (Hok : stream_ok self0) by now apply init_ok.
  assert (HN : 0 <= N).
  { destruct (stream_ok_inv self0 Hok) as (xs & _ & _ & _ & Hxs & _).
    cbn in Hxs. lia. }
  assert (Hdiv : N / b = q) by (subst N; apply Z.div_mul; lia).
  assert (Hq0 : 0 <= q) by nia.
  rewrite Hdiv.
  assert (Hfull : Forall (fun bt => is_exhaustion_signal bt = false /\
                                    batch_rows bt = b)
                         (fst (next_instances (Z.to_nat q) self0 b))).
  { apply next_instances_full; trivial; cbn; lia. }
  pose proof (next_instances_ok (Z.to_nat q) self0 b Hok) as [Hok' HN'].
  pose proof (next_instances_index (Z.to_nat q) self0 b) as Hidx'.
  change (instance_index self0) with 0 in Hidx'.
  change (num_samples self0) with N in HN'.
  repeat split.
  - apply next_instances_length.
  - exact Hfull.
  - rewrite (total_rows_full _ b Hfull), next_instances_length. lia.
  - intros j Hj. unfold has_more_instances. cbn [fst].
    rewrite next_instances_index.
    rewrite (proj2 (next_instances_ok j self0 b Hok)).
    change (instance_index self0) with 0. change (num_samples self0) with N.
    apply Z.ltb_lt. nia.
  - unfold has_more_instances. cbn [fst].
    rewrite Hidx', HN'. apply Z.ltb_ge. lia.
  - rewrite next_instance_empty by (trivial; lia).
    now destruct (num_target_tasks _ <? 2).
Qed.

(** [restart] is the identity on the object. *)
Lemma restart_unchanged self : snd (restart self) = self.
Proof. reflexivity. Qed.

End StreamContract.

(** ** The contract on the two small streams *)

Section OnSmallStreams.

(** C3.  The stream reports itself restartable, but [restart] leaves the
    cursor where it is: after one call of [next_instance(1)] and a
    [restart], the next call returns the second sample, not the first
    again. *)
Theorem restart_does_not_rewind :
  let first := fst (next_instance Demo.single 1) in
  let restarted := snd (restart (snd (next_instance Demo.single 1))) in
  fst (is_restartable Demo.single) = true /\
  instance_index restarted = 1 /\
  first = (Some (Arr2 2 [[7; 2]]), Some (Arr1 [1])) /\
  fst (next_instance restarted 1) = (Some (Arr2 2 [[5; 3]]), Some (Arr1 [0])) /\
  fst (next_instance restarted 1) <> first.
Proof. cbv zeta. repeat split. discriminate. Qed.

(** C4.  With one row left, [next_instance(2)] returns that one row: a
    batch shorter than asked for, which is not the exhaustion signal. *)
Theorem next_instance_short_tail :
  let self := snd (next_instance Demo.single 3) in
  fst (estimated_remaining_instances self) = 1 /\
  fst (next_instance self 2) = (Some (Arr2 2 [[8; 3]]), Some (Arr1 [1])) /\
  batch_rows (fst (next_instance self 2)) = 1 /\
  is_exhaustion_signal (fst (next_instance self 2)) = false.
Proof. cbv zeta. repeat split. Qed.

(** Against C5 as stated.  The cursor passes [num_samples]: four samples,
    one call for three and one for two, both with [batch_size >= 1]. *)
Lemma cursor_passes_num_samples :
  let self := exec (NextInstance 2) (exec (NextInstance 3) Demo.single) in
  reachable 1 self /\
  instance_index self = 5 /\ num_samples self = 4 /\
  ~ (0 <= instance_index self <= num_samples self).
Proof.
  cbv zeta. split; [|split; [reflexivity | split; [reflexivity|]]].
  - do 2 (constructor; [|cbn; lia]).
    constructor. split; reflexivity.
  - cbn. lia.
Qed.

(** Against C6 as stated.  After the same two calls
    [estimated_remaining_instances] hands its caller a negative number. *)
Lemma estimated_remaining_instances_negative :
  let self := exec (NextInstance 2) (exec (NextInstance 3) Demo.single) in
  reachable 1 self /\
  fst (estimated_remaining_instances self) = -1 /\
  ~ (0 <= fst (estimated_remaining_instances self)).
Proof.
  cbv zeta. split; [|split; [reflexivity|]].
  - do 2 (constructor; [|cbn; lia]).
    constructor. split; reflexivity.
  - cbn. lia.
Qed.

(** A first batch of two from each stream: flat labels for one target, a
    matrix for three. *)
Example single_first_two :
  fst (next_instance Demo.single 2) =
  (Some (Arr2 2 [[7; 2]; [5; 3]]), Some (Arr1 [1; 0])).
Proof. reflexivity. Qed.

Example multi_first_two :
  fst (next_instance Demo.multi 2) =
  (Some (Arr2 2 [[7; 2]; [5; 3]]), Some (Arr2 3 [[1; 0; 1]; [0; 1; 1]])).
Proof. reflexivity. Qed.

(** Ten samples read one at a time: [has_more_instances()] after each of
    the ten calls, and the eleventh call. *)
Example ten_one_by_one :
  map (fun j => fst (has_more_instances (snd (next_instances j Demo.ten 1))))
      (seq 1 10)
  = [true; true; true; true; true; true; true; true; true; false] /\
  fst (next_instance (snd (next_instances 10 Demo.ten 1)) 1)
  = (Some (Arr2 4 []), Some (Arr1 [])).
Proof. split; reflexivity. Qed.

End OnSmallStreams.

(** ** The classifier contract *)

Section ClassifierContract.

Import Classification.

Context {model array value error : Type}.
Context {learner : BaseClassifier model array value error}.

(** C9.  The [first_fit] of the base class has the effect of [fit] on the
    same arguments: it leaves the learner in the state [fit] leaves it in and
    raises what [fit] raises.  Where [fit] returns, [first_fit] returns
    [None] in place of the value of [fit]. *)
Theorem first_fit_delegates (self : model) (X y : array)
  (classes : option array) :
  effect (first_fit self X y classes) = effect (fit self X y classes) /\
  returned (first_fit self X y classes) =
    option_map (fun _ => none) (returned (fit self X y classes)).
Proof.
  unfold first_fit.
  destruct (fit self X y classes) as [v self' | e self']; split; reflexivity.
Qed.

End ClassifierContract.

(** [first_fit] on the small learner: the labels are stored as by [fit], and
    the count that [fit] returns is dropped. *)
Example memo_first_fit :
  Classification.first_fit (H := Classification.Memo.memo)
    [] [3; 4] [1; 0] None
  = Classification.Returns None [1; 0].
Proof. reflexivity. Qed.

Example memo_first_fit_raises :
  Classification.first_fit (H := Classification.Memo.memo)
    [5] [3; 4] [1] None
  = Classification.Raises Classification.Memo.ValueError [5].
Proof. reflexivity. Qed.

(** ** The statements at concrete streams *)

Section Instances.

Lemma single_reachable lo : reachable lo Demo.single.
Proof. constructor. split; reflexivity. Defined.

Lemma multi_reachable lo : reachable lo Demo.multi.
Proof. constructor. split; reflexivity. Defined.

(** C1 on the single-target stream after all four samples were read. *)
Lemma next_instance_past_end_witness :
  let self := snd (next_instance Demo.single 4) in
  stream_ok self /\
  num_samples self <= instance_index self /\
  fst (next_instance self 1) = (Some (Arr2 2 []), Some (Arr1 [])) /\
  is_exhaustion_signal (fst (next_instance self 1)) = true.
Proof.
  cbv zeta.
  assert (Hok : stream_ok (snd (next_instance Demo.single 4)))
    by (split; reflexivity).
  assert (Hpast : num_samples (snd (next_instance Demo.single 4))
                  <= instance_index (snd (next_instance Demo.single 4)))
    by (vm_compute; discriminate).
  split; [exact Hok | split; [exact Hpast|]].
  exact (proj2 (next_instance_past_end _ 1 Hok Hpast)).
Defined.

(** C2 on the single-target stream, read two samples at a time. *)
Lemma even_batches_until_exhaustion_witness :
  generated (Demo.features, Demo.labels1) 4 2 1 /\
  1 <= 2 /\
  (2 | 4) /\
  length (fst (next_instances 2 Demo.single 2)) = 2%nat /\
  total_rows (fst (next_instances 2 Demo.single 2)) = 4 /\
  fst (has_more_instances (snd (next_instances 2 Demo.single 2))) = false.
Proof.
  assert (Hgen : generated (Demo.features, Demo.labels1) 4 2 1)
    by (split; reflexivity).
  assert (Hb : 1 <= 2) by lia.
  assert (Hdiv : (2 | 4)) by (exists 2; reflexivity).
  split; [exact Hgen | split; [exact Hb | split; [exact Hdiv|]]].
  destruct (even_batches_until_exhaustion
              (Demo.features, Demo.labels1) 4 2 1 1 2 Hgen Hb Hdiv)
    as (Hlen & _ & Htotal & _ & Hmore & _).
  split; [exact Hlen | split; [exact Htotal | exact Hmore]].
Defined.

(** C5 on the single-target stream after a first call. *)
Lemma cursor_nonneg_and_advancing_witness :
  let self := exec (NextInstance 3) Demo.single in
  reachable 1 self /\
  0 <= instance_index self /\
  instance_index (exec (NextInstance 2) self) = instance_index self + 2 /\
  instance_index (exec GetLastInstance self) = instance_index self.
Proof.
  cbv zeta.
  assert (Hreach : reachable 1 (exec (NextInstance 3) Demo.single))
    by (constructor; [apply single_reachable | cbn; lia]).
  split; [exact Hreach|].
  destruct (cursor_nonneg_and_advancing _ Hreach) as (Hnonneg & Hnext & Hacc).
  split; [exact Hnonneg|].
  split; [apply Hnext; lia | apply Hacc; reflexivity].
Defined.

(** C6 on the single-target stream after a first call. *)
Lemma estimated_remaining_instances_value_witness :
  let self := exec (NextInstance 3) Demo.single in
  0 <= 1 /\
  reachable 1 self /\
  fst (estimated_remaining_instances self) = 1 /\
  fst (estimated_remaining_instances self) <= num_samples self.
Proof.
  cbv zeta.
  assert (Hlo : 0 <= 1) by lia.
  assert (Hreach : reachable 1 (exec (NextInstance 3) Demo.single))
    by (constructor; [apply single_reachable | cbn; lia]).
  split; [exact Hlo | split; [exact Hreach|]].
  destruct (estimated_remaining_instances_value 1 _ Hlo Hreach)
    as (_ & Hval & Hle & _).
  split; [exact Hval | exact Hle].
Defined.


(** C8 on the single-target stream: two accessors and a [restart] after the
    call of [next_instance]. *)
Lemma get_last_instance_pure_read_witness :
  let ops := [HasMoreInstances; Restart; GetLastInstance] in
  forallb (fun o => negb (is_next_instance o)) ops = true /\
  fst (get_last_instance (run ops (snd (next_instance Demo.single 2)))) =
  fst (next_instance Demo.single 2).
Proof.
  cbv zeta. split; [reflexivity|].
  exact (proj2 (get_last_instance_pure_read Demo.single 2
                  [HasMoreInstances; Restart; GetLastInstance] eq_refl)).
Defined.

(** C10 on the single-target stream, asked for more than it holds. *)
Lemma next_instance_never_absent_witness :
  reachable 0 Demo.single /\
  fst (next_instance Demo.single 9) <> (None, None).
Proof.
  split; [apply single_reachable|].
  exact (proj2 (proj2 (next_instance_never_absent 0 Demo.single 9
                         (single_reachable 0)))).
Defined.

End Instances.

(** * Further properties of the stream *)

(** ** Forward slices *)

Section ForwardSlices.

Context {A : Type}.
Implicit Types (l : list A) (i b : Z).

(** With bounds that are not negative, clamping is what [firstn] and
    [skipn] do by themselves. *)
Lemma py_slice_forward l i b :
  0 <= i -> 0 <= b ->
  py_slice l i (i + b) = firstn (Z.to_nat b) (skipn (Z.to_nat i) l).
Proof.
  intros Hi Hb. unfold py_slice.
  destruct (Z.le_gt_cases (Z.of_nat (length l)) i) as [Hpast | Hin].
  - rewrite !slice_index_beyond by lia.
    rewrite Z.sub_diag, (skipn_all2 (n := Z.to_nat i)) by lia.
    now rewrite firstn_nil.
  - rewrite (slice_index_inside _ i) by lia.
    destruct (Z.le_gt_cases (i + b) (Z.of_nat (length l))) as [Hfit | Hover].
    + rewrite slice_index_inside by lia. do 2 f_equal. lia.
    + rewrite slice_index_beyond by lia.
      now rewrite !firstn_all2 by (rewrite length_skipn; lia).
Qed.

Lemma firstn_plus (a c : nat) l :
  firstn (a + c) l = firstn a l ++ firstn c (skipn a l).
Proof.
  revert l. induction a as [| a IH]; intros l; [reflexivity|].
  destruct l as [| x l]; cbn [Nat.add firstn skipn app].
  - now rewrite firstn_nil.
  - now rewrite IH.
Qed.

Lemma skipn_plus (a c : nat) l :
  skipn (a + c) l = skipn c (skipn a l).
Proof.
  revert l. induction a as [| a IH]; intros l; [reflexivity|].
  destruct l as [| x l]; cbn [Nat.add skipn]; [now rewrite skipn_nil|].
  apply IH.
Qed.

Lemma nth_error_firstn_skipn (a c j : nat) l :
  (j < length (firstn c (skipn a l)))%nat ->
  nth_error (firstn c (skipn a l)) j = nth_error l (a + j).
Proof.
  intros Hj. rewrite length_firstn in Hj.
  rewrite nth_error_firstn.
  destruct (Nat.ltb_spec j c) as [_ | Hge]; [|lia].
  now rewrite nth_error_skipn.
Qed.

End ForwardSlices.

(** ** Batches of any size *)

Section AnySize.

Context {F : Type}.
Implicit Types (self : MultilabelGenerator F) (batch_size : Z).
Implicit Types (data : ndarray F * ndarray Z).

Lemma stream_ok_rows self :
  stream_ok self ->
  X self = Arr2 (num_features self) (matrix_rows (X self)) /\
  y self = Arr2 (num_target_tasks self) (matrix_rows (y self)) /\
  Z.of_nat (length (matrix_rows (X self))) = num_samples self /\
  Z.of_nat (length (matrix_rows (y self))) = num_samples self /\
  Forall (fun row => Z.of_nat (length row) = num_features self)
         (matrix_rows (X self)) /\
  Forall (fun row => Z.of_nat (length row) = num_target_tasks self)
         (matrix_rows (y self)).
Proof.
  intros Hok.
  destruct (stream_ok_inv self Hok)
    as (xs & ys & HX & Hy & Hxs & Hys & Hxrows & Hyrows).
  rewrite HX, Hy. cbn [matrix_rows]. repeat split; assumption.
Qed.

(** The batch of a call with a cursor and a size that are not negative:
    the next [batch_size] rows of both matrices, or as many as are left. *)
Lemma next_instance_forward self batch_size :
  stream_ok self ->
  0 <= instance_index self ->
  0 <= batch_size ->
  let i := Z.to_nat (instance_index self) in
  let k := Z.to_nat batch_size in
  fst (next_instance self batch_size) =
  (Some (Arr2 (num_features self) (firstn k (skipn i (matrix_rows (X self))))),
   Some (if num_target_tasks self <? 2
         then Arr1 (concat (firstn k (skipn i (matrix_rows (y self)))))
         else Arr2 (num_target_tasks self)
                   (firstn k (skipn i (matrix_rows (y self)))))).
Proof.
  intros Hok Hidx Hb. cbv zeta.
  destruct (stream_ok_rows self Hok) as (HX & Hy & _).
  rewrite (next_instance_matrices self batch_size _ _ _ _ HX Hy).
  now rewrite !py_slice_forward by assumption.
Qed.

(** X1.  The number of rows of a batch: [batch_size], or what is left of the
    data when that is less, and none once the cursor has passed the end. *)
Theorem next_instance_row_count self batch_size :
  stream_ok self ->
  0 <= instance_index self ->
  0 <= batch_size ->
  batch_rows (fst (next_instance self batch_size)) =
  Z.min batch_size (Z.max 0 (num_samples self - instance_index self)).
Proof.
  intros Hok Hidx Hb.
  rewrite (next_instance_forward self batch_size Hok Hidx Hb).
  destruct (stream_ok_rows self Hok) as (_ & _ & Hxs & _).
  unfold batch_rows. cbn [fst nrows].
  rewrite length_firstn, length_skipn. lia.
Qed.

(** X2.  Whatever the batch size, negative or beyond the end, the batch is a
    pair of arrays that fit together: features of shape [(r, num_features)]
    with [0 <= r <= num_samples], and labels with the same [r] rows, of
    shape [(r, num_target_tasks)] for two targets or more and flattened to
    [r * num_target_tasks] entries otherwise. *)
Theorem next_instance_shapes_agree self batch_size :
  stream_ok self ->
  exists x labels,
    fst (next_instance self batch_size) = (Some x, Some labels) /\
    0 <= nrows x <= num_samples self /\
    shape_is x (nrows x) (num_features self) = true /\
    (2 <= num_target_tasks self ->
       shape_is labels (nrows x) (num_target_tasks self) = true) /\
    (num_target_tasks self < 2 ->
       ndim labels = 1 /\ nrows labels = nrows x * num_target_tasks self).
Proof.
  intros Hok.
  destruct (stream_ok_inv self Hok)
    as (xs & ys & HX & Hy & Hxs & Hys & Hxrows & Hyrows).
  pose proof (next_instance_matrices self batch_size _ _ _ _ HX Hy) as Hres.
  cbv zeta in Hres.
  set (i := instance_index self) in *.
  assert (Hsame : length (py_slice ys i (i + batch_size))
                  = length (py_slice xs i (i + batch_size)))
    by (rewrite !py_slice_length; now rewrite Hxs, Hys).
  pose proof (Forall_py_slice _ xs i (i + batch_size) Hxrows) as Hxs'.
  pose proof (Forall_py_slice _ ys i (i + batch_size) Hyrows) as Hys'.
  assert (Hshape : forall (A : Type) (rows : list (list A)) c,
             Forall (fun row => Z.of_nat (length row) = c) rows ->
             shape_is (Arr2 c rows) (Z.of_nat (length rows)) c = true).
  { intros A rows c Hrows. cbn [shape_is].
    rewrite !andb_true_iff, !Z.eqb_eq, forallb_forall.
    repeat split; trivial. intros row Hrow. apply Z.eqb_eq.
    rewrite Forall_forall in Hrows. auto. }
  eexists _, _. split; [exact Hres|]. cbn [nrows].
  split; [|split; [now apply Hshape | split]].
  - rewrite py_slice_length.
    pose proof (slice_index_bounds _ i (Nat2Z.is_nonneg (length xs))).
    pose proof (slice_index_bounds _ (i + batch_size)
                  (Nat2Z.is_nonneg (length xs))).
    lia.
  - intros Hmulti.
    destruct (Z.ltb_spec (num_target_tasks self) 2); [lia|].
    rewrite <- Hsame. now apply Hshape.
  - intros Hflat.
    destruct (Z.ltb_spec (num_target_tasks self) 2); [|lia].
    split; [reflexivity|]. cbn [nrows].
    now rewrite (concat_rows_length _ _ Hys'), Hsame.
Qed.

(** X3.  Row [j] of a batch is sample [instance_index + j] of the data, in
    the features and in the labels alike: a label row for two targets or
    more, the single label of that sample for one target. *)
Theorem next_instance_rows_aligned self batch_size (j : nat) :
  stream_ok self ->
  0 <= instance_index self ->
  0 <= batch_size ->
  Z.of_nat j < batch_rows (fst (next_instance self batch_size)) ->
  let b := fst (next_instance self batch_size) in
  let sample := (Z.to_nat (instance_index self) + j)%nat in
  nth_error (batch_feature_rows b) j =
    nth_error (matrix_rows (X self)) sample /\
  (2 <= num_target_tasks self ->
     nth_error (batch_label_rows b) j =
       nth_error (matrix_rows (y self)) sample) /\
  (num_target_tasks self = 1 ->
     option_map (fun v => [v]) (nth_error (batch_label_entries b) j) =
       nth_error (matrix_rows (y self)) sample).
Proof.
  intros Hok Hidx Hb. cbv zeta.
  rewrite (next_instance_forward self batch_size Hok Hidx Hb).
  destruct (stream_ok_rows self Hok) as (_ & _ & Hxs & Hys & _ & Hyrows).
  unfold batch_rows, batch_feature_rows, batch_label_rows,
    batch_label_entries.
  cbn [fst snd nrows]. intros Hj.
  set (i := Z.to_nat (instance_index self)) in *.
  set (k := Z.to_nat batch_size) in *.
  assert (Hjy : (j < length (firstn k (skipn i (matrix_rows (y self)))))%nat).
  { rewrite length_firstn, length_skipn in *. lia. }
  split; [|split].
  - apply nth_error_firstn_skipn. lia.
  - intros Hmulti.
    destruct (Z.ltb_spec (num_target_tasks self) 2); [lia|].
    cbn [matrix_rows]. now apply nth_error_firstn_skipn.
  - intros Hone. rewrite Hone. cbn [Z.ltb Z.compare Pos.compare Pos.compare_cont].
    rewrite <- (nth_error_firstn_skipn i k j _ Hjy).
    assert (Hrows : Forall (fun row => length row = 1%nat)
                           (firstn k (skipn i (matrix_rows (y self))))).
    { apply Forall_forall. intros row Hrow.
      assert (Hin : In row (matrix_rows (y self))).
      { rewrite <- (firstn_skipn i (matrix_rows (y self))).
        apply in_or_app. right.
        rewrite <- (firstn_skipn k (skipn i (matrix_rows (y self)))).
        apply in_or_app. now left. }
      rewrite Forall_forall in Hyrows. specialize (Hyrows row Hin). lia. }
    clear Hjy. revert j Hj Hrows.
    generalize (firstn k (skipn i (matrix_rows (y self)))) as rows.
    intros rows j _. revert j.
    induction rows as [| row rows IH]; intros j Hrows.
    + now destruct j.
    + inversion Hrows as [| ? ? Hrow Hrest]; subst.
      destruct row as [| v [| ? ?]]; try discriminate.
      destruct j as [| j]; [reflexivity|].
      cbn [concat app nth_error]. now apply IH.
Qed.

End AnySize.

(** ** Traversals *)

Section Traversals.

Context {F : Type}.
Implicit Types (self : MultilabelGenerator F) (batch_size : Z).
Implicit Types (data : ndarray F * ndarray Z) (sizes : list Z).
Implicit Types (ops : list op).

Lemma next_instance_each_cons batch_size sizes self :
  next_instance_each (batch_size :: sizes) self =
  (fst (next_instance self batch_size)
     :: fst (next_instance_each sizes (snd (next_instance self batch_size))),
   snd (next_instance_each sizes (snd (next_instance self batch_size)))).
Proof.
  cbn [next_instance_each].
  destruct (next_instance self batch_size) as [b self1]. cbn [fst snd].
  now destruct (next_instance_each sizes self1).
Qed.

Lemma sum_sizes_nonneg sizes :
  Forall (fun b => 0 <= b) sizes -> 0 <= sum_sizes sizes.
Proof.
  induction 1 as [| b sizes Hb _ IH]; unfold sum_sizes in *;
    cbn [fold_right]; lia.
Qed.

Lemma next_instance_each_index sizes self :
  instance_index (snd (next_instance_each sizes self)) =
  instance_index self + sum_sizes sizes.
Proof.
  revert self. induction sizes as [| b sizes IH]; intros self.
  - cbn. lia.
  - rewrite next_instance_each_cons. cbn [snd].
    rewrite IH, next_instance_index. unfold sum_sizes. cbn [fold_right]. lia.
Qed.

(** The rows that a run of calls returns, one batch after the other, are
    the rows of the data from the cursor on, as many as were asked for. *)
Lemma next_instance_each_rows sizes self :
  stream_ok self ->
  0 <= instance_index self ->
  Forall (fun b => 0 <= b) sizes ->
  let i := Z.to_nat (instance_index self) in
  let k := Z.to_nat (sum_sizes sizes) in
  let batches := fst (next_instance_each sizes self) in
  concat (map batch_feature_rows batches) =
    firstn k (skipn i (matrix_rows (X self))) /\
  concat (map batch_label_entries batches) =
    concat (firstn k (skipn i (matrix_rows (y self)))).
Proof.
  intros Hok Hidx Hsizes. revert self Hok Hidx.
  induction Hsizes as [| b sizes Hb Hsizes IH]; intros self Hok Hidx.
  - cbv zeta. split; reflexivity.
  - cbv zeta. rewrite next_instance_each_cons. cbn [fst map concat].
    pose proof (sum_sizes_nonneg sizes Hsizes) as Hsum.
    destruct (IH (snd (next_instance self b))) as [IHx IHy].
    + exact (exec_ok (NextInstance b) self Hok).
    + rewrite next_instance_index. lia.
    + cbv zeta in IHx, IHy. rewrite IHx, IHy.
      rewrite next_instance_index.
      change (X (snd (next_instance self b))) with (X self).
      change (y (snd (next_instance self b))) with (y self).
      rewrite (next_instance_forward self b Hok Hidx Hb).
      unfold batch_feature_rows, batch_label_entries. cbn [fst snd].
      replace (Z.to_nat (sum_sizes (b :: sizes)))
        with (Z.to_nat b + Z.to_nat (sum_sizes sizes))%nat
        by (unfold sum_sizes; cbn [fold_right]; fold (sum_sizes sizes); lia).
      replace (Z.to_nat (instance_index self + b))
        with (Z.to_nat (instance_index self) + Z.to_nat b)%nat by lia.
      rewrite !firstn_plus, !skipn_plus, concat_app.
      split; [reflexivity|].
      now destruct (num_target_tasks self <? 2).
Qed.

Lemma total_rows_concat (bs : list (batch F)) :
  Forall (fun b => exists c rows, fst b = Some (Arr2 c rows)) bs ->
  total_rows bs = Z.of_nat (length (concat (map batch_feature_rows bs))).
Proof.
  induction 1 as [| b bs (c & rows & Hb) _ IH]; [reflexivity|].
  unfold total_rows in *. cbn [fold_right map concat].
  rewrite length_app, Nat2Z.inj_add, <- IH.
  unfold batch_rows, batch_feature_rows. now rewrite Hb.
Qed.

Lemma next_instance_each_matrices sizes self :
  stream_ok self ->
  Forall (fun b => exists c rows, fst b = Some (Arr2 c rows))
         (fst (next_instance_each sizes self)).
Proof.
  revert self. induction sizes as [| b sizes IH]; intros self Hok.
  - constructor.
  - rewrite next_instance_each_cons. cbn [fst]. constructor.
    + destruct (stream_ok_inv self Hok) as (xs & ys & HX & Hy & _).
      rewrite (next_instance_matrices self b _ _ _ _ HX Hy).
      cbn [fst]. eauto.
    + apply IH. exact (exec_ok (NextInstance b) self Hok).
Qed.

(** X4.  Reading a fresh stream with batch sizes of any mix, none negative:
    the batches, put end to end, are the first rows of the data, each sample
    once and in order, with the labels of the same samples beside them; the
    rows delivered are as many as were asked for, or all [n_samples] of them
    once that many have been asked for. *)
Theorem traversal_covers_data data n_samples n_features n_targets n_labels
  sizes :
  generated data n_samples n_features n_targets ->
  Forall (fun b => 0 <= b) sizes ->
  let self0 := init data n_samples n_features n_targets n_labels in
  let batches := fst (next_instance_each sizes self0) in
  let k := Z.to_nat (sum_sizes sizes) in
  concat (map batch_feature_rows batches) =
    firstn k (matrix_rows (fst data)) /\
  concat (map batch_label_entries batches) =
    concat (firstn k (matrix_rows (snd data))) /\
  total_rows batches = Z.min n_samples (sum_sizes sizes) /\
  (n_samples <= sum_sizes sizes ->
     concat (map batch_feature_rows batches) = matrix_rows (fst data) /\
     concat (map batch_label_entries batches) =
       concat (matrix_rows (snd data))).
Proof.
  intros Hgen Hsizes. cbv zeta.
  set (self0 := init data n_samples n_features n_targets n_labels).
  assert (Hok : stream_ok self0) by now apply init_ok.
  destruct (next_instance_each_rows sizes self0 Hok (Z.le_refl 0) Hsizes)
    as [Hx Hy].
  cbv zeta in Hx, Hy. change (Z.to_nat (instance_index self0)) with 0%nat in *.
  cbn [skipn] in Hx, Hy.
  change (X self0) with (fst data) in *. change (y self0) with (snd data) in *.
  destruct (stream_ok_rows self0 Hok) as (_ & _ & Hxs & Hys & _).
  change (X self0) with (fst data) in Hxs.
  change (y self0) with (snd data) in Hys.
  change (num_samples self0) with n_samples in Hxs, Hys.
  pose proof (sum_sizes_nonneg sizes Hsizes) as Hsum.
  split; [exact Hx | split; [exact Hy | split]].
  - rewrite (total_rows_concat _ (next_instance_each_matrices sizes self0 Hok)).
    rewrite Hx, length_firstn. lia.
  - intros Hall. rewrite Hx, Hy. now rewrite !firstn_all2 by lia.
Qed.

(** X5.  Once the cursor has reached the end, further calls with batch sizes
    that are not negative return nothing but empty batches, and
    [has_more_instances] stays false. *)
Theorem exhausted_stays_exhausted sizes self :
  stream_ok self ->
  num_samples self <= instance_index self ->
  Forall (fun b => 0 <= b) sizes ->
  Forall (fun b => is_exhaustion_signal b = true /\ batch_rows b = 0)
         (fst (next_instance_each sizes self)) /\
  fst (has_more_instances (snd (next_instance_each sizes self))) = false.
Proof.
  intros Hok Hpast Hsizes. revert self Hok Hpast.
  induction Hsizes as [| b sizes Hb Hsizes IH]; intros self Hok Hpast.
  - split; [constructor|]. unfold has_more_instances. cbn [fst snd].
    cbn [next_instance_each snd]. apply Z.ltb_ge. lia.
  - rewrite next_instance_each_cons. cbn [fst snd].
    destruct (IH (snd (next_instance self b))) as [IHall IHmore].
    + exact (exec_ok (NextInstance b) self Hok).
    + rewrite next_instance_index.
      change (num_samples (snd (next_instance self b)))
        with (num_samples self). lia.
    + split; [|exact IHmore]. constructor; [|exact IHall].
      rewrite (next_instance_empty self b Hok Hpast).
      split; [now destruct (num_target_tasks self <? 2) | reflexivity].
Qed.

End Traversals.

(** ** The cursor along a trace *)

Section Cursor.

Context {F : Type}.
Implicit Types (self : MultilabelGenerator F) (batch_size : Z).
Implicit Types (data : ndarray F * ndarray Z) (ops : list op).

Lemma py_slice_crossed_nil {A : Type} (l : list A) (start stop : Z) :
  0 <= stop <= start -> py_slice l start stop = [].
Proof.
  intros Hcross. apply length_zero_iff_nil. rewrite py_slice_length.
  unfold slice_index.
  destruct (Z.ltb_spec start 0), (Z.ltb_spec stop 0); lia.
Qed.

Lemma py_slice_same_nil {A : Type} (l : list A) (i : Z) :
  py_slice l i i = [].
Proof.
  apply length_zero_iff_nil. rewrite py_slice_length. lia.
Qed.

Lemma exec_frame (o : op) self :
  X (exec o self) = X self /\ y (exec o self) = y self /\
  num_samples (exec o self) = num_samples self /\
  num_features (exec o self) = num_features self /\
  num_target_tasks (exec o self) = num_target_tasks self /\
  num_labels (exec o self) = num_labels self.
Proof. destruct o; repeat split; reflexivity. Qed.

Lemma run_frame ops self :
  X (run ops self) = X self /\ y (run ops self) = y self /\
  num_samples (run ops self) = num_samples self /\
  num_features (run ops self) = num_features self /\
  num_target_tasks (run ops self) = num_target_tasks self /\
  num_labels (run ops self) = num_labels self.
Proof.
  unfold run. revert self.
  induction ops as [| o ops IH]; intros self; [repeat split; reflexivity|].
  cbn [fold_left].
  destruct (IH (exec o self)) as (HX & Hy & Hn & Hf & Ht & Hl).
  destruct (exec_frame o self) as (HX' & Hy' & Hn' & Hf' & Ht' & Hl').
  repeat split; congruence.
Qed.

Lemma run_index ops self :
  instance_index (run ops self) = instance_index self + requested ops.
Proof.
  unfold run. revert self.
  induction ops as [| o ops IH]; intros self; [cbn; lia|].
  cbn [fold_left]. rewrite IH. unfold requested. cbn [fold_right].
  destruct o; cbn [exec snd]; try rewrite next_instance_index; cbn; lia.
Qed.

(** X6.  The cursor is the number of samples asked for so far, whether or
    not the stream had them: after any sequence of calls the estimate of
    what remains has gone down by exactly that number, and
    [has_more_instances] is true exactly while less was asked for than the
    estimate said at the start. *)
Theorem cursor_counts_requests ops self :
  instance_index (run ops self) = instance_index self + requested ops /\
  fst (estimated_remaining_instances (run ops self)) =
    fst (estimated_remaining_instances self) - requested ops /\
  fst (has_more_instances (run ops self)) =
    (requested ops <? fst (estimated_remaining_instances self)).
Proof.
  destruct (run_frame ops self) as (_ & _ & Hn & _).
  unfold estimated_remaining_instances, has_more_instances. cbn [fst].
  rewrite run_index, Hn. repeat split; lia.
Qed.

(** X7.  No sequence of calls changes the data or what the accessors say
    about it: the two matrices and the four numbers of the constructor stay
    as they were, and with them the values of [get_num_attributes],
    [get_num_targets], [get_num_targeting_tasks], [get_classes] and
    [get_info]. *)
Theorem data_never_changes ops self :
  X (run ops self) = X self /\
  y (run ops self) = y self /\
  fst (get_num_attributes (run ops self)) = fst (get_num_attributes self) /\
  fst (get_num_targets (run ops self)) = fst (get_num_targets self) /\
  fst (get_num_targeting_tasks (run ops self)) =
    fst (get_num_targets self) /\
  fst (get_classes (run ops self)) = fst (get_classes self) /\
  fst (get_info (run ops self)) = fst (get_info self).
Proof.
  destruct (run_frame ops self) as (HX & Hy & Hn & Hf & Ht & Hl).
  unfold get_num_attributes, get_num_targets, get_num_targeting_tasks,
    get_classes, get_info.
  cbn [fst]. rewrite Hy, Hn, Hf, Ht, Hl. repeat split; assumption.
Qed.

(** X8.  Until the first call of [next_instance], [get_last_instance]
    returns [(None, None)], whatever other calls were made. *)
Theorem get_last_instance_before_first_batch data n_samples n_features
  n_targets n_labels ops :
  forallb (fun o => negb (is_next_instance o)) ops = true ->
  fst (get_last_instance
         (run ops (init data n_samples n_features n_targets n_labels))) =
  (None, None).
Proof.
  intros Hops. now rewrite run_without_next_instance.
Qed.

(** X9.  A call with [batch_size = 0] returns an empty batch, which reads
    like the exhaustion signal, and leaves the cursor and the answer of
    [has_more_instances] as they were: an empty batch alone does not tell
    that the stream is exhausted. *)
Theorem next_instance_zero self :
  stream_ok self ->
  batch_rows (fst (next_instance self 0)) = 0 /\
  is_exhaustion_signal (fst (next_instance self 0)) = true /\
  instance_index (snd (next_instance self 0)) = instance_index self /\
  fst (has_more_instances (snd (next_instance self 0))) =
    fst (has_more_instances self).
Proof.
  intros Hok.
  destruct (stream_ok_inv self Hok) as (xs & ys & HX & Hy & _).
  rewrite (next_instance_matrices self 0 _ _ _ _ HX Hy).
  rewrite Z.add_0_r, !py_slice_same_nil.
  unfold has_more_instances. cbn [fst].
  rewrite next_instance_index, Z.add_0_r.
  repeat split. now destruct (num_target_tasks self <? 2).
Qed.

(** X10.  A negative batch size moves the cursor back. After
    [next_instance(k)], the call [next_instance(-k)] returns an empty batch
    and puts the cursor where it was, so that [next_instance(k)] returns the
    same batch a second time. *)
Theorem negative_batch_size_rewinds self k :
  stream_ok self ->
  0 <= instance_index self ->
  0 <= k ->
  let forth := next_instance self k in
  let back := next_instance (snd forth) (- k) in
  batch_rows (fst back) = 0 /\
  is_exhaustion_signal (fst back) = true /\
  instance_index (snd back) = instance_index self /\
  fst (next_instance (snd back) k) = fst forth.
Proof.
  intros Hok Hidx Hk. cbv zeta.
  destruct (stream_ok_inv self Hok) as (xs & ys & HX & Hy & _).
  set (s1 := snd (next_instance self k)).
  assert (HX1 : X s1 = Arr2 (num_features self) xs) by exact HX.
  assert (Hy1 : y s1 = Arr2 (num_target_tasks self) ys) by exact Hy.
  assert (Hi1 : instance_index s1 = instance_index self + k)
    by apply next_instance_index.
  pose proof (next_instance_matrices s1 (- k) _ _ _ _ HX1 Hy1) as Hback.
  cbv zeta in Hback. rewrite Hi1 in Hback.
  rewrite !py_slice_crossed_nil in Hback by lia.
  set (s2 := snd (next_instance s1 (- k))).
  assert (Hi2 : instance_index s2 = instance_index self).
  { unfold s2. rewrite next_instance_index, Hi1. lia. }
  split; [now rewrite Hback|]. split.
  { rewrite Hback. now destruct (num_target_tasks s1 <? 2). }
  split; [exact Hi2|].
  assert (HX2 : X s2 = Arr2 (num_features self) xs) by exact HX.
  assert (Hy2 : y s2 = Arr2 (num_target_tasks self) ys) by exact Hy.
  rewrite (next_instance_matrices s2 k _ _ _ _ HX2 Hy2).
  rewrite (next_instance_matrices self k _ _ _ _ HX Hy).
  now rewrite Hi2.
Qed.

(** X11.  Reading a fresh stream in batches of [b >= 1] when [b] need not
    divide [n_samples]: [n_samples / b] full batches, then one batch with
    the [n_samples mod b] rows that are left, after which
    [has_more_instances] is false. *)
Theorem uneven_batches_tail data N n_features n_targets n_labels b :
  generated data N n_features n_targets ->
  1 <= b ->
  let self0 := init data N n_features n_targets n_labels in
  let full := next_instances (Z.to_nat (N / b)) self0 b in
  let tail := next_instance (snd full) b in
  length (fst full) = Z.to_nat (N / b) /\
  Forall (fun bt => is_exhaustion_signal bt = false /\ batch_rows bt = b)
         (fst full) /\
  fst (has_more_instances (snd full)) = (0 <? N mod b) /\
  batch_rows (fst tail) = N mod b /\
  fst (has_more_instances (snd tail)) = false.
Proof.
  intros Hgen Hb. cbv zeta.
  set (self0 := init data N n_features n_targets n_labels).
  assert (Hok : stream_ok self0) by now apply init_ok.
  assert (HN : 0 <= N).
  { destruct (stream_ok_inv self0 Hok) as (xs & _ & _ & _ & Hxs & _).
    cbn in Hxs. lia. }
  pose proof (Z.div_mod N b ltac:(lia)) as Hdm.
  pose proof (Z.mod_pos_bound N b ltac:(lia)) as Hmod.
  assert (Hq : 0 <= N / b) by (apply Z.div_pos; lia).
  set (q := Z.to_nat (N / b)).
  assert (Hqb : Z.of_nat q * b = N - N mod b) by (unfold q; nia).
  pose proof (next_instances_ok q self0 b Hok) as [Hok' HN'].
  pose proof (next_instances_index q self0 b) as Hidx'.
  change (instance_index self0) with 0 in Hidx'.
  change (num_samples self0) with N in HN'.
  split; [apply next_instances_length|]. split.
  { apply next_instances_full; trivial; cbn; lia. }
  split.
  { unfold has_more_instances. cbn [fst]. rewrite Hidx', HN'.
    f_equal. lia. }
  split.
  - rewrite (next_instance_forward _ b Hok') by lia.
    destruct (stream_ok_rows _ Hok') as (_ & _ & Hxs & _).
    unfold batch_rows. cbn [fst nrows].
    rewrite length_firstn, length_skipn. lia.
  - unfold has_more_instances. cbn [fst].
    rewrite next_instance_index, Hidx'.
    change (num_samples (snd (next_instance _ b)))
      with (num_samples (snd (next_instances q self0 b))).
    rewrite HN'. apply Z.ltb_ge. lia.
Qed.

End Cursor.

(** ** The classes of a stream *)

Section Classes.

Lemma insert_sorted_In (v a : Z) (l : list Z) :
  In v (insert_sorted a l) <-> v = a \/ In v l.
Proof.
  induction l as [| h t IH]; cbn [insert_sorted].
  - cbn. intuition.
  - destruct (a <=? h); cbn [In]; [intuition|]. rewrite IH. intuition.
Qed.

Lemma insert_sorted_sorted (a : Z) (l : list Z) :
  Sorted.StronglySorted Z.le l -> Sorted.StronglySorted Z.le (insert_sorted a l).
Proof.
  induction 1 as [| h t Ht IH Hh]; cbn [insert_sorted].
  - repeat constructor.
  - destruct (Z.leb_spec a h) as [Hle | Hgt].
    + constructor; [now constructor|].
      constructor; [exact Hle|].
      rewrite Forall_forall in *. intros v Hv. specialize (Hh v Hv). lia.
    + constructor; [exact IH|].
      rewrite Forall_forall in *. intros v Hv.
      apply insert_sorted_In in Hv as [-> | Hv]; [lia | auto].
Qed.

Lemma sort_In (v : Z) (l : list Z) : In v (sort l) <-> In v l.
Proof.
  induction l as [| h t IH]; [reflexivity|].
  unfold sort in *. cbn [fold_right In].
  rewrite insert_sorted_In, IH. intuition.
Qed.

Lemma sort_sorted (l : list Z) : Sorted.StronglySorted Z.le (sort l).
Proof.
  induction l as [| h t IH]; [constructor|].
  now apply insert_sorted_sorted.
Qed.

Lemma keep_changes_spec (prev : Z) (l : list Z) :
  Sorted.StronglySorted Z.le l ->
  Forall (fun v => prev <= v) l ->
  Sorted.StronglySorted Z.lt (keep_changes prev l) /\
  Forall (fun v => prev < v) (keep_changes prev l) /\
  (forall v, In v (keep_changes prev l) <-> In v l /\ v <> prev).
Proof.
  intros Hsorted. revert prev.
  induction Hsorted as [| h t Ht IH Hh]; intros prev Hprev.
  - cbn [keep_changes In]. split; [constructor | split; [constructor|]].
    intros v. tauto.
  - inversion Hprev as [| ? ? Hph Hpt]; subst.
    destruct (IH h Hh) as (IHs & IHlt & IHin).
    cbn [keep_changes].
    destruct (Z.eqb_spec h prev) as [Heq | Hne].
    + subst h. split; [exact IHs | split; [exact IHlt|]].
      intros v. rewrite IHin. cbn [In]. split; [tauto|].
      intros [[Hv | Hv] Hneq]; [congruence | tauto].
    + assert (Hlt : Forall (fun v => prev < v) (keep_changes h t)).
      { rewrite Forall_forall in *. intros v Hv.
        specialize (IHlt v Hv). lia. }
      split; [now constructor | split; [constructor; [lia | exact Hlt]|]].
      intros v. cbn [In]. rewrite IHin. split.
      * intros [Hv | [Hv Hvh]].
        -- subst v. split; [now left | congruence].
        -- split; [now right|].
           rewrite Forall_forall in Hh. specialize (Hh v Hv). lia.
      * intros [[Hv | Hv] Hneq]; [now left|].
        destruct (Z.eq_dec h v) as [Hvh | Hvh]; [now left|].
        right. split; [exact Hv | congruence].
Qed.

Lemma drop_repeats_sort_spec (l : list Z) :
  Sorted.StronglySorted Z.lt (drop_repeats (sort l)) /\
  (forall v, In v (drop_repeats (sort l)) <-> In v l).
Proof.
  pose proof (sort_sorted l) as Hsorted.
  assert (Hin : forall v, In v (sort l) <-> In v l)
    by (intros v; apply sort_In).
  destruct (sort l) as [| h t]; cbn [drop_repeats].
  - split; [constructor | exact Hin].
  - inversion Hsorted as [| ? ? Ht Hh]; subst.
    destruct (keep_changes_spec h t Ht Hh) as (Hs & Hlt & Hkin).
    split; [now constructor|].
    intros v. rewrite <- Hin. cbn [In]. rewrite Hkin.
    destruct (Z.eq_dec v h); intuition.
Qed.

(** X12.  [get_classes] lists the values that occur in the label matrix:
    each of them once, in ascending order, and nothing else. For a matrix of
    zeros and ones the answer is one of [[]], [[0]], [[1]] and [[0, 1]]. *)
Theorem get_classes_sorted_distinct {F : Type}
  (self : MultilabelGenerator F) :
  stream_ok self ->
  exists classes,
    fst (get_classes self) = Arr1 classes /\
    snd (get_classes self) = self /\
    Sorted.StronglySorted Z.lt classes /\
    NoDup classes /\
    (forall v, In v classes <->
               exists row, In row (matrix_rows (y self)) /\ In v row) /\
    ((forall row v, In row (matrix_rows (y self)) -> In v row ->
                    v = 0 \/ v = 1) ->
     classes = [] \/ classes = [0] \/ classes = [1] \/ classes = [0; 1]).
Proof.
  intros Hok.
  destruct (stream_ok_inv self Hok) as (xs & ys & _ & Hy & _).
  unfold get_classes, unique. cbn [fst snd]. rewrite Hy.
  cbn [flatten matrix_rows].
  destruct (drop_repeats_sort_spec (concat ys)) as [Hsorted Hin].
  set (classes := drop_repeats (sort (concat ys))) in *.
  assert (Hmem : forall v, In v classes <->
                           exists row, In row ys /\ In v row).
  { intros v. rewrite Hin, in_concat. reflexivity. }
  exists classes. repeat split; trivial.
  - clear Hin Hmem. induction Hsorted as [| h t Ht IH Hh]; constructor.
    + intros Hdup. rewrite Forall_forall in Hh. specialize (Hh h Hdup). lia.
    + exact IH.
  - now apply Hmem.
  - now apply Hmem.
  - intros Hbits.
    assert (Hbit : forall v, In v classes -> v = 0 \/ v = 1).
    { intros v Hv. apply Hmem in Hv as (row & Hrow & Hv). eauto. }
    clear Hin Hmem Hbits.
    destruct Hsorted as [| a t Ht Ha]; [now left|].
    pose proof (Hbit a (or_introl eq_refl)) as Hbita.
    destruct Ht as [| b t' Ht' Hb].
    + destruct Hbita as [-> | ->]; tauto.
    + pose proof (Hbit b (or_intror (or_introl eq_refl))) as Hbitb.
      inversion Ha as [| ? ? Hab _]; subst.
      destruct t' as [| c t''].
      * right. right. right. f_equal; [lia|]. f_equal. lia.
      * exfalso. inversion Hb as [| ? ? Hbc _]; subst.
        pose proof (Hbit c (or_intror (or_intror (or_introl eq_refl)))).
        lia.
Qed.

End Classes.

(** ** The description of a stream *)

Section Description.

#[local] Abbreviation chars := String.list_ascii_of_string.

Lemma chars_append (s t : String.string) :
  chars (String.append s t) = chars s ++ chars t.
Proof.
  induction s as [| c s IH]; [reflexivity|].
  cbn [String.append String.list_ascii_of_string app]. now rewrite IH.
Qed.

Lemma chars_inj (s t : String.string) : chars s = chars t -> s = t.
Proof.
  intros H.
  rewrite <- (String.string_of_list_ascii_of_string s),
          <- (String.string_of_list_ascii_of_string t).
  now rewrite H.
Qed.

(** The digits of a number hold no space. *)
Lemma uint_chars_no_space (d : Decimal.uint) :
  ~ In " "%char (chars (DecimalString.NilEmpty.string_of_uint d)).
Proof.
  induction d; cbn [DecimalString.NilEmpty.string_of_uint
                      String.list_ascii_of_string In];
    [tauto | intros [H | H]; [discriminate | auto] ..].
Qed.

Lemma str_no_space (z : Z) : ~ In " "%char (chars (str z)).
Proof.
  unfold str. destruct (Z.to_int z) as [d | d];
    cbn [DecimalString.NilEmpty.string_of_int String.list_ascii_of_string In].
  - apply uint_chars_no_space.
  - intros [H | H]; [discriminate|]. now apply uint_chars_no_space in H.
Qed.

Lemma str_inj (z z' : Z) : str z = str z' -> z = z'.
Proof.
  unfold str. intros H. apply DecimalZ.to_int_inj.
  apply (f_equal DecimalString.NilEmpty.int_of_string) in H.
  rewrite !DecimalString.NilEmpty.isi in H. congruence.
Qed.

(** Two texts that agree up to and after a separator which neither holds
    agree before it. *)
Lemma split_at_separator (sep : Ascii.ascii) (a b r r' : list Ascii.ascii) :
  ~ In sep a -> ~ In sep b ->
  a ++ sep :: r = b ++ sep :: r' -> a = b /\ r = r'.
Proof.
  revert b. induction a as [| c a IH]; intros b Ha Hb Heq.
  - destruct b as [| c' b]; cbn in Heq.
    + split; congruence.
    + exfalso. apply Hb. left. congruence.
  - destruct b as [| c' b]; cbn in Heq.
    + exfalso. apply Ha. left. congruence.
    + injection Heq as Hc Heq.
      destruct (IH b) as [Hab Hr]; trivial.
      * intros H. apply Ha. now right.
      * intros H. apply Hb. now right.
      * split; congruence.
Qed.

Lemma str_then_separator (z z' : Z) (d r r' : list Ascii.ascii) :
  chars (str z) ++ (" "%char :: d) ++ r =
  chars (str z') ++ (" "%char :: d) ++ r' ->
  z = z' /\ r = r'.
Proof.
  cbn [app]. intros H.
  apply split_at_separator in H as [Hz Hr]; try apply str_no_space.
  split; [now apply str_inj, chars_inj | now apply app_inv_head in Hr].
Qed.

(** X13.  The text of [get_info] tells the four numbers of the constructor:
    two streams with the same description have the same [num_samples],
    [num_features], [num_target_tasks] and [num_labels]. *)
Theorem get_info_tells_parameters {F : Type}
  (self self' : MultilabelGenerator F) :
  fst (get_info self) = fst (get_info self') ->
  num_samples self = num_samples self' /\
  num_features self = num_features self' /\
  num_target_tasks self = num_target_tasks self' /\
  num_labels self = num_labels self'.
Proof.
  unfold get_info. cbn [fst]. intros H.
  apply (f_equal chars) in H. rewrite !chars_append in H.
  apply app_inv_head in H.
  change (chars " - n_features: ")
    with (" "%char :: chars "- n_features: ") in H.
  change (chars " - n_targets: ")
    with (" "%char :: chars "- n_targets: ") in H.
  change (chars " - n_labels:")
    with (" "%char :: chars "- n_labels:") in H.
  apply str_then_separator in H as [Hn H].
  apply str_then_separator in H as [Hf H].
  apply str_then_separator in H as [Ht H].
  repeat split; trivial. now apply str_inj, chars_inj.
Qed.

Example get_info_single :
  fst (get_info Demo.single) =
  "MultilabelGenerator: n_samples: 4 - n_features: 2 - n_targets: 1 - n_labels:1"%string.
Proof. reflexivity. Qed.

End Description.

(** ** The further statements at concrete streams *)

Section MoreInstances.

Lemma single_ok : stream_ok Demo.single.
Proof. split; reflexivity. Defined.

Lemma multi_ok : stream_ok Demo.multi.
Proof. split; reflexivity. Defined.

Lemma single_generated : generated (Demo.features, Demo.labels1) 4 2 1.
Proof. split; reflexivity. Defined.

(** Three rows read, three more asked for: one comes. *)
Lemma next_instance_row_count_witness :
  let self := snd (next_instance Demo.single 3) in
  stream_ok self /\ 0 <= instance_index self /\ 0 <= 3 /\
  batch_rows (fst (next_instance self 3)) = Z.min 3 (Z.max 0 (4 - 3)).
Proof.
  cbv zeta.
  assert (Hok : stream_ok (snd (next_instance Demo.single 3)))
    by (split; reflexivity).
  assert (Hidx : 0 <= instance_index (snd (next_instance Demo.single 3)))
    by (vm_compute; discriminate).
  assert (Hb : 0 <= 3) by lia.
  split; [exact Hok | split; [exact Hidx | split; [exact Hb|]]].
  exact (next_instance_row_count _ 3 Hok Hidx Hb).
Defined.

(** A negative batch size on the three-target stream. *)
Lemma next_instance_shapes_agree_witness :
  stream_ok Demo.multi /\
  exists x labels,
    fst (next_instance Demo.multi (-3)) = (Some x, Some labels) /\
    shape_is labels (nrows x) 3 = true.
Proof.
  split; [exact multi_ok|].
  destruct (next_instance_shapes_agree Demo.multi (-3) multi_ok)
    as (x & labels & Hres & _ & _ & Hmulti & _).
  exists x, labels. split; [exact Hres|].
  apply Hmulti. cbn. lia.
Defined.

(** The second row of the batch read after the first sample. *)
Lemma next_instance_rows_aligned_witness :
  let self := snd (next_instance Demo.multi 1) in
  stream_ok self /\ 0 <= instance_index self /\ 0 <= 2 /\
  Z.of_nat 1 < batch_rows (fst (next_instance self 2)) /\
  nth_error (batch_feature_rows (fst (next_instance self 2))) 1 =
    nth_error (matrix_rows (X self)) 2.
Proof.
  cbv zeta.
  assert (Hok : stream_ok (snd (next_instance Demo.multi 1)))
    by (split; reflexivity).
  assert (Hidx : 0 <= instance_index (snd (next_instance Demo.multi 1)))
    by (vm_compute; discriminate).
  assert (Hb : 0 <= 2) by lia.
  assert (Hj : Z.of_nat 1
               < batch_rows (fst (next_instance
                                    (snd (next_instance Demo.multi 1)) 2)))
    by reflexivity.
  split; [exact Hok | split; [exact Hidx | split; [exact Hb|]]].
  split; [exact Hj|].
  exact (proj1 (next_instance_rows_aligned _ 2 1 Hok Hidx Hb Hj)).
Defined.

(** Batches of one, two and three from a stream of four samples. *)
Lemma traversal_covers_data_witness :
  generated (Demo.features, Demo.labels1) 4 2 1 /\
  Forall (fun b => 0 <= b) [1; 2; 3] /\
  concat (map batch_feature_rows
              (fst (next_instance_each [1; 2; 3] Demo.single))) =
    matrix_rows Demo.features /\
  total_rows (fst (next_instance_each [1; 2; 3] Demo.single)) = 4.
Proof.
  assert (Hsizes : Forall (fun b => 0 <= b) [1; 2; 3])
    by (repeat constructor; lia).
  split; [exact single_generated | split; [exact Hsizes|]].
  destruct (traversal_covers_data (Demo.features, Demo.labels1) 4 2 1 1
              [1; 2; 3] single_generated Hsizes)
    as (_ & _ & Htotal & Hall).
  split; [apply Hall; cbn; lia | exact Htotal].
Defined.

(** Two more calls after the four samples were read. *)
Lemma exhausted_stays_exhausted_witness :
  let self := snd (next_instance Demo.single 4) in
  stream_ok self /\ num_samples self <= instance_index self /\
  Forall (fun b => 0 <= b) [2; 1] /\
  fst (has_more_instances (snd (next_instance_each [2; 1] self))) = false.
Proof.
  cbv zeta.
  assert (Hok : stream_ok (snd (next_instance Demo.single 4)))
    by (split; reflexivity).
  assert (Hpast : num_samples (snd (next_instance Demo.single 4))
                  <= instance_index (snd (next_instance Demo.single 4)))
    by (vm_compute; discriminate).
  assert (Hsizes : Forall (fun b => 0 <= b) [2; 1])
    by (repeat constructor; lia).
  split; [exact Hok | split; [exact Hpast | split; [exact Hsizes|]]].
  exact (proj2 (exhausted_stays_exhausted [2; 1] _ Hok Hpast Hsizes)).
Defined.

(** Accessors and a [restart] on a fresh stream. *)
Lemma get_last_instance_before_first_batch_witness :
  forallb (fun o => negb (is_next_instance o))
          [HasMoreInstances; Restart; GetNumTargets] = true /\
  fst (get_last_instance
         (run [HasMoreInstances; Restart; GetNumTargets] Demo.single)) =
  (None, None).
Proof.
  split; [reflexivity|].
  exact (get_last_instance_before_first_batch
           (Demo.features, Demo.labels1) 4 2 1 1
           [HasMoreInstances; Restart; GetNumTargets] eq_refl).
Defined.

(** A call for nothing on a fresh stream. *)
Lemma next_instance_zero_witness :
  stream_ok Demo.single /\
  is_exhaustion_signal (fst (next_instance Demo.single 0)) = true /\
  fst (has_more_instances (snd (next_instance Demo.single 0))) = true.
Proof.
  split; [exact single_ok|].
  destruct (next_instance_zero Demo.single single_ok)
    as (_ & Hsignal & _ & Hmore).
  split; [exact Hsignal | exact Hmore].
Defined.

(** Three forth, three back, three forth again. *)
Lemma negative_batch_size_rewinds_witness :
  stream_ok Demo.single /\ 0 <= instance_index Demo.single /\ 0 <= 3 /\
  fst (next_instance
         (snd (next_instance (snd (next_instance Demo.single 3)) (- 3))) 3) =
  fst (next_instance Demo.single 3).
Proof.
  assert (Hidx : 0 <= instance_index Demo.single) by (cbn; lia).
  assert (Hk : 0 <= 3) by lia.
  split; [exact single_ok | split; [exact Hidx | split; [exact Hk|]]].
  exact (proj2 (proj2 (proj2
           (negative_batch_size_rewinds Demo.single 3 single_ok Hidx Hk)))).
Defined.

(** Four samples in batches of three: one full batch and a tail of one. *)
Lemma uneven_batches_tail_witness :
  generated (Demo.features, Demo.labels1) 4 2 1 /\ 1 <= 3 /\
  batch_rows (fst (next_instance (snd (next_instances 1 Demo.single 3)) 3))
    = 4 mod 3.
Proof.
  assert (Hb : 1 <= 3) by lia.
  split; [exact single_generated | split; [exact Hb|]].
  destruct (uneven_batches_tail (Demo.features, Demo.labels1) 4 2 1 1 3
              single_generated Hb)
    as (_ & _ & _ & Htail & _).
  exact Htail.
Defined.

(** The classes of the three-target stream. *)
Lemma get_classes_sorted_distinct_witness :
  stream_ok Demo.multi /\
  exists classes,
    fst (get_classes Demo.multi) = Arr1 classes /\
    Sorted.StronglySorted Z.lt classes.
Proof.
  split; [exact multi_ok|].
  destruct (get_classes_sorted_distinct Demo.multi multi_ok)
    as (classes & Hres & _ & Hsorted & _).
  exists classes. split; [exact Hres | exact Hsorted].
Defined.

(** The description before and after reading. *)
Lemma get_info_tells_parameters_witness :
  fst (get_info Demo.single) =
    fst (get_info (snd (next_instance Demo.single 2))) /\
  num_samples Demo.single = num_samples (snd (next_instance Demo.single 2)).
Proof.
  split; [reflexivity|].
  exact (proj1 (get_info_tells_parameters Demo.single
                  (snd (next_instance Demo.single 2)) eq_refl)).
Defined.

Example get_classes_multi : fst (get_classes Demo.multi) = Arr1 [0; 1].
Proof. reflexivity. Qed.

End MoreInstances.

(** ** Flat labels below one target *)

Section WithoutTargets.


End WithoutTargets.
